(** * RFM preprocessing and K-Means tuning: a shallow embedding

    The two programs of [MLProject/]:
    - [automate_Fakih-Widatmojo.py]: cleaning, RFM aggregation and scaling
      of a table of sales lines ([Module Automate]);
    - [modelling_tuning.py]: the K-Means sweep over k = 2..6
      ([Module ModellingTuning]).

    Numeric cells are IEEE binary64 values (numpy's [float64]), embedded as
    Rocq's primitive floats, so that a missing value is a real NaN and the
    comparisons of the source behave on it as they do in pandas.  Python
    exceptions are a result type; what pandas, numpy, scikit-learn and
    MLflow compute is taken as a parameter of the section that uses it. *)

From Stdlib Require Import ZArith List String Bool Lia Floats Uint63 DecimalString.
From Stdlib Require Import Sorted Permutation.
Import ListNotations.

(** ** Exceptions and the result of a call *)

Inductive exn : Type :=
| FileNotFoundError (path : string)
| KeyError (column : string)
| IntCastingNaNError
| TypeError (msg : string)
| ValueError (msg : string)
| SinkError (msg : string).

Inductive result (A : Type) : Type :=
| Ok (a : A)
| Raise (e : exn).

Arguments Ok {A} a.
Arguments Raise {A} e.

Definition bind {A B : Type} (c : result A) (k : A -> result B) : result B :=
  match c with
  | Ok a => k a
  | Raise e => Raise e
  end.

Notation "x <- c ;; k" := (bind c (fun x => k))
  (at level 61, c at next level, right associativity).
Notation "c ;;; k" := (bind c (fun _ => k))
  (at level 61, right associativity).

Fixpoint mapM {A B : Type} (f : A -> result B) (l : list A) : result (list B) :=
  match l with
  | [] => Ok []
  | a :: l' => b <- f a ;; bs <- mapM f l' ;; Ok (b :: bs)
  end.

Definition raised {A : Type} (c : result A) : bool :=
  match c with
  | Ok _ => false
  | Raise _ => true
  end.

(** * automate_Fakih-Widatmojo.py *)

Module Automate.

Local Open Scope Z_scope.

(** ** The table

    A [datetime64] value is a count of nanoseconds since the epoch, or the
    missing value [NaT]. *)

Inductive Datetime : Type :=
| NaT
| Timestamp (ns : Z).

Inductive Timedelta : Type :=
| NaTd
| Delta (ns : Z).

(** A cell of the [InvoiceDate] column: the text read from the file, or the
    [datetime64] value that line 20 stores in its place. *)
Inductive DateCell : Type :=
| Text (s : string)
| Parsed (d : Datetime).

(** One line of the raw table.  A missing number is NaN, a missing text is
    [None]; [CustomerID] is read as [float64] because it has missing cells.
    [UnitPrice] and [Discount] are [float64] columns, and a cell of
    [Quantity] is the [float64] that enters the product of line 40.  A
    table whose [Quantity] and [UnitPrice] are both [int64] columns is not
    covered: there line 40 takes their product in [int64], modulo 2^64. *)
Record Row : Type := mkRow {
  CustomerID : float;
  InvoiceNo : option string;
  InvoiceDate : DateCell;
  Quantity : float;
  UnitPrice : float;
  Discount : float;
  ReturnStatus : option string
}.

(** A pandas [DataFrame]: the names of the columns it has, and its lines.
    The field of a line whose column is not in [columns] is never read:
    [getitem] raises first. *)
Record DataFrame : Type := mkDataFrame {
  columns : list string;
  rows : list Row
}.

Definition has_column (df : DataFrame) (c : string) : bool :=
  existsb (String.eqb c) (columns df).

(** [df[c]]: [KeyError] when the table has no such column. *)
Definition getitem (df : DataFrame) (c : string) : result unit :=
  if has_column df c then Ok tt else Raise (KeyError c).

Definition set_InvoiceDate (r : Row) (c : DateCell) : Row :=
  mkRow (CustomerID r) (InvoiceNo r) c (Quantity r) (UnitPrice r)
        (Discount r) (ReturnStatus r).

(** The value of a [datetime64] cell.  After line 20 the column holds
    [Parsed] cells only (see [convert_columns]). *)
Definition datetime_of (c : DateCell) : Datetime :=
  match c with
  | Parsed d => d
  | Text _ => NaT
  end.

(** ** pandas operations on columns *)

(** [Series.where(cond, other)] on one cell. *)
Definition where_ (cond : bool) (x other : float) : float :=
  if cond then x else other.

(** [Series.clip(lower, upper)] on one cell: a missing cell is masked out of
    both replacements. *)
Definition clip (lower upper x : float) : float :=
  let mask := is_nan x in
  let result := where_ (mask || (lower <=? x)%float) x lower in
  where_ (mask || (x <=? upper)%float) result upper.

Definition int64_min : Z := - 2 ^ 63.
Definition int64_max : Z := 2 ^ 63 - 1.

(** The cast of a truncated [float64] to [int64]: a value outside the
    range of [int64] gives [int64_min] (the conversion instruction of
    x86-64). *)
Definition cast_int64 (a : Z) : Z :=
  if (int64_min <=? a) && (a <=? int64_max) then a else int64_min.

(** [astype(int)] on one [float64] cell: truncation toward zero and the
    cast to [int64]; [IntCastingNaNError] on a value that is not finite. *)
Definition astype_int (x : float) : result Z :=
  match Prim2SF x with
  | SpecFloat.S754_zero _ => Ok 0
  | SpecFloat.S754_finite s m e =>
      let a := if 0 <=? e then Zpos m * 2 ^ e else Zpos m / 2 ^ (- e) in
      Ok (cast_int64 (if s then - a else a))
  | SpecFloat.S754_infinity _ => Raise IntCastingNaNError
  | SpecFloat.S754_nan => Raise IntCastingNaNError
  end.

(** An [int64] as a [float64] (exact below 2^53). *)
Definition float_of_Z (z : Z) : float :=
  match z with
  | Z0 => 0%float
  | Zpos _ => PrimFloat.of_uint63 (Uint63.of_Z z)
  | Zneg p => (- PrimFloat.of_uint63 (Uint63.of_Z (Zpos p)))%float
  end.

Definition float_of_optZ (z : option Z) : float :=
  match z with
  | Some v => float_of_Z v
  | None => nan
  end.

Definition ns_per_day : Z := 86400000000000.

(** [max] of two datetimes, [NaT] skipped. *)
Definition max_datetime (a b : Datetime) : Datetime :=
  match a, b with
  | NaT, _ => b
  | _, NaT => a
  | Timestamp x, Timestamp y => Timestamp (Z.max x y)
  end.

(** [Series.max()] of a datetime column: [NaT] when nothing is present. *)
Definition series_max (l : list Datetime) : Datetime :=
  fold_left max_datetime l NaT.

(** [d + dt.timedelta(days=n)]. *)
Definition add_days (d : Datetime) (n : Z) : Datetime :=
  match d with
  | NaT => NaT
  | Timestamp t => Timestamp (t + n * ns_per_day)
  end.

(** [a - b] on datetimes. *)
Definition sub_datetime (a b : Datetime) : Timedelta :=
  match a, b with
  | Timestamp x, Timestamp y => Delta (x - y)
  | _, _ => NaTd
  end.

(** [.days]: whole days, rounded down; NaN ([None]) on [NaT]. *)
Definition days (t : Timedelta) : option Z :=
  match t with
  | NaTd => None
  | Delta ns => Some (ns / ns_per_day)
  end.

(** The ['count'] aggregation: the cells that are present. *)
Definition count (l : list (option string)) : Z :=
  Z.of_nat (List.length (filter (fun c => match c with Some _ => true | None => false end) l)).

(** One step of the ['sum'] aggregation of a group ([group_sum] of
    pandas): a missing cell is skipped; a present one is added with Kahan's
    compensation, and a compensation that is NaN is reset to 0. *)
Definition kahan_step (st : float * float) (val : float) : float * float :=
  let '(sumx, compensation) := st in
  if is_nan val then st
  else
    let y := (val - compensation)%float in
    let t := (sumx + y)%float in
    let c := (t - sumx - y)%float in
    (t, if is_nan c then 0%float else c).

(** The ['sum'] aggregation: the empty sum is 0. *)
Definition nansum (l : list float) : float :=
  fst (fold_left kahan_step l (0%float, 0%float)).

(** ** Lines 22-40: cleaning *)

(** A line of [df_clean] once [DiscountClipped] and [TotalPrice] exist. *)
Record CleanRow : Type := mkCleanRow {
  c_CustomerID : Z;
  c_line : Row;
  DiscountClipped : float;
  TotalPrice : float
}.

Definition not_returned (r : Row) : bool :=
  match ReturnStatus r with
  | Some s => String.eqb s "Not Returned"
  | None => false
  end.

(** Line 24: [df.dropna(subset=["CustomerID"]).copy()]. *)
Definition dropna_CustomerID (df : DataFrame) : result (list Row) :=
  getitem df "CustomerID" ;;;
  Ok (filter (fun r => negb (is_nan (CustomerID r))) (rows df)).

(** Line 27: [df_clean['CustomerID'].astype(int)]. *)
Definition astype_CustomerID (l : list Row) : result (list (Z * Row)) :=
  mapM (fun r => i <- astype_int (CustomerID r) ;; Ok (i, r)) l.

(** Lines 30-31. *)
Definition filter_ReturnStatus (df : DataFrame) (l : list (Z * Row)) : list (Z * Row) :=
  if has_column df "ReturnStatus"
  then filter (fun p => not_returned (snd p)) l
  else l.

(** Lines 39-40. *)
Definition derive (p : Z * Row) : CleanRow :=
  let d := clip 0 1 (Discount (snd p)) in
  mkCleanRow (fst p) (snd p) d
    (Quantity (snd p) * UnitPrice (snd p) * (1 - d))%float.

Definition clean (df : DataFrame) : result (list CleanRow) :=
  kept <- dropna_CustomerID df ;;
  typed <- astype_CustomerID kept ;;
  let df_clean := filter_ReturnStatus df typed in
  getitem df "Quantity" ;;;
  let df_clean := filter (fun p => (0 <? Quantity (snd p))%float) df_clean in
  getitem df "UnitPrice" ;;;
  let df_clean := filter (fun p => (0 <? UnitPrice (snd p))%float) df_clean in
  getitem df "Discount" ;;;
  Ok (map derive df_clean).

(** ** Lines 44-58: RFM aggregation *)

Record RfmRow : Type := mkRfmRow {
  rfm_CustomerID : Z;
  Recency : option Z;
  Frequency : Z;
  Monetary : float
}.

(** [groupby('CustomerID')]: the groups in ascending order of the key, the
    lines of a group in the order of the table. *)
Fixpoint insert_group (k : Z) (r : CleanRow) (gs : list (Z * list CleanRow))
  : list (Z * list CleanRow) :=
  match gs with
  | [] => [(k, [r])]
  | (k', g) :: gs' =>
      if k <? k' then (k, [r]) :: gs
      else if k =? k' then (k', g ++ [r]) :: gs'
      else (k', g) :: insert_group k r gs'
  end.

Definition groupby (t : list CleanRow) : list (Z * list CleanRow) :=
  fold_left (fun gs r => insert_group (c_CustomerID r) r gs) t [].

Definition date_of (r : CleanRow) : Datetime := datetime_of (InvoiceDate (c_line r)).

(** Line 46. *)
Definition snapshot_date (df_clean : list CleanRow) : Datetime :=
  add_days (series_max (map date_of df_clean)) 1.

Definition agg (snapshot : Datetime) (kg : Z * list CleanRow) : RfmRow :=
  let g := snd kg in
  mkRfmRow (fst kg)
    (days (sub_datetime snapshot (series_max (map date_of g))))
    (count (map (fun r => InvoiceNo (c_line r)) g))
    (nansum (map TotalPrice g)).

(** Lines 46-58.  The aggregation names the column [InvoiceNo], which
    nothing has read before. *)
Definition rfm_table (df : DataFrame) (df_clean : list CleanRow) : result (list RfmRow) :=
  let snapshot := snapshot_date df_clean in
  getitem df "InvoiceNo" ;;;
  Ok (map (agg snapshot) (groupby df_clean)).

(** Lines 22-58, on the table that line 20 left. *)
Definition rfm_stage (df : DataFrame) : result (list RfmRow) :=
  df_clean <- clean df ;;
  rfm_table df df_clean.

(** ** Lines 62-74: transformation and scaling, and the whole function *)

Definition Features : Type := (float * float * float)%type.

(** The dtype of the column [Recency] of the RFM table.  The lambda of
    line 49 is called once for each group and returns a number; on a table
    without groups it is never called, and the column keeps the
    [datetime64] of [InvoiceDate]. *)
Inductive dtype : Type :=
| datetime64
| number.

Definition Recency_dtype (rfm : list RfmRow) : dtype :=
  match rfm with
  | [] => datetime64
  | _ :: _ => number
  end.

(** What [np.log1p] raises on a [datetime64] column. *)
Definition log1p_of_dates : exn :=
  TypeError "ufunc 'log1p' not supported for the input types".

Record ScaledRow : Type := mkScaledRow {
  s_Recency : float;
  s_Frequency : float;
  s_Monetary : float;
  s_CustomerID : option Z
}.

(** Line 72: the assignment of a column aligns on the index 0, 1, ...; a
    line without a partner gets a missing identifier. *)
Fixpoint with_CustomerID (scaled : list Features) (ids : list Z) : list ScaledRow :=
  match scaled with
  | [] => []
  | (r, f, m) :: scaled' =>
      match ids with
      | [] => mkScaledRow r f m None :: with_CustomerID scaled' []
      | i :: ids' => mkScaledRow r f m (Some i) :: with_CustomerID scaled' ids'
      end
  end.

Section Preprocess.

(** What the libraries compute: [pd.to_datetime(errors='coerce')] on a
    text, [np.log1p], and [StandardScaler().fit_transform]. *)
Variable parse_datetime : string -> Datetime.
Variable log1p : float -> float.
Variable fit_transform : list Features -> result (list Features).

Definition to_datetime (c : DateCell) : Datetime :=
  match c with
  | Text s => parse_datetime s
  | Parsed d => d
  end.

(** Line 20: the column of the caller's table is replaced. *)
Definition convert_InvoiceDate (df : DataFrame) : result DataFrame :=
  getitem df "InvoiceDate" ;;;
  Ok (mkDataFrame (columns df)
        (map (fun r => set_InvoiceDate r (Parsed (to_datetime (InvoiceDate r)))) (rows df))).

(** Line 64: [np.log1p] on the three columns, which raises on a column of
    dates. *)
Definition rfm_features (rfm : list RfmRow) : result (list Features) :=
  match Recency_dtype rfm with
  | datetime64 => Raise log1p_of_dates
  | number =>
      Ok (map (fun r => (log1p (float_of_optZ (Recency r)),
                         log1p (float_of_Z (Frequency r)),
                         log1p (Monetary r))) rfm)
  end.

(** Lines 64-74. *)
Definition scale (rfm : list RfmRow) : result (list ScaledRow) :=
  rfm_log <- rfm_features rfm ;;
  rfm_scaled <- fit_transform rfm_log ;;
  Ok (with_CustomerID rfm_scaled (map rfm_CustomerID rfm)).

(** Lines 22-74, on the table that line 20 left. *)
Definition after_conversion (df : DataFrame) : result (list ScaledRow) :=
  rfm <- rfm_stage df ;;
  scale rfm.

(** [preprocess_data(df)]: the caller's table as the call leaves it, and
    what the call returns or raises.  The progress messages it prints are
    left out. *)
Definition preprocess_data (df : DataFrame) : DataFrame * result (list ScaledRow) :=
  match convert_InvoiceDate df with
  | Raise e => (df, Raise e)
  | Ok df' => (df', after_conversion df')
  end.

(** ** [main] *)

Variable path_exists : string -> bool.
Variable read_csv : string -> result DataFrame.

Definition load_data (path : string) : result DataFrame :=
  if path_exists path then read_csv path else Raise (FileNotFoundError path).

Definition input_path : string := "online-sales-dataset_raw.csv".
Definition output_path : string := "online-sales-dataset_preprocessing.csv".

(** How a run of [main] ends: the load failed, was reported and [main]
    returned; an exception left [preprocess_data] and the run; or the
    table was written. *)
Inductive Outcome : Type :=
| LoadFailed (e : exn)
| Aborted (e : exn)
| Saved (path : string) (table : list ScaledRow).

(** Lines 20-40: the date conversion and the cleaning. *)
Definition cleaner (df : DataFrame) : result (list CleanRow) :=
  df' <- convert_InvoiceDate df ;; clean df'.

(** Lines 20-58. *)
Definition rfm_of_raw (df : DataFrame) : result (list RfmRow) :=
  df' <- convert_InvoiceDate df ;; rfm_stage df'.

Definition main : Outcome :=
  match load_data input_path with
  | Raise e => LoadFailed e
  | Ok df =>
      match snd (preprocess_data df) with
      | Raise e => Aborted e
      | Ok df_processed => Saved output_path df_processed
      end
  end.

End Preprocess.

(** ** Vocabulary of the statements below *)

(** The columns in the order in which [preprocess_data] first names them. *)
Definition read_order : list string :=
  ["InvoiceDate"; "CustomerID"; "Quantity"; "UnitPrice"; "Discount"; "InvoiceNo"]%string.

Definition first_missing (df : DataFrame) : option string :=
  find (fun c => negb (has_column df c)) read_order.

(** Every identifier that is present can be cast to an integer. *)
Definition castable (df : DataFrame) : bool :=
  forallb (fun r => is_nan (CustomerID r) || negb (raised (astype_int (CustomerID r))))
          (rows df).















End Automate.

(** * modelling_tuning.py *)

Module ModellingTuning.

Local Open Scope Z_scope.

(** ** Tables, models, and what the program hands to its collaborators *)

(** The table read from the file: named columns of numbers, in order. *)
Definition Frame : Type := list (string * list float).

(** [data.drop(columns=[name], errors='ignore')]. *)
Definition drop (name : string) (data : Frame) : Frame :=
  filter (fun c => negb (String.eqb (fst c) name)) data.

(** A fitted [KMeans]: the attributes the program reads. *)
Record Model : Type := mkModel {
  n_clusters : Z;
  labels_ : list Z;
  inertia_ : float;
  cluster_centers_ : list (list float)
}.

(** [data.copy()] with the column [Cluster] set. *)
Record Clustered : Type := mkClustered {
  frame : Frame;
  Cluster : list Z
}.

(** The MLflow runs and the files of a sweep, and the names the f-strings
    of the source give them. *)
Inductive Run : Type :=
| Parent
| Child (k : Z).

Inductive Path : Type :=
| cluster_plot (k : Z)
| result_csv (k : Z).

Definition str (k : Z) : string := NilZero.string_of_int (Z.to_int k).

Definition run_name (r : Run) : string :=
  match r with
  | Parent => "K-Means Hyperparameter Tuning"
  | Child k => "K-Means-k" ++ str k
  end.

Definition filename (p : Path) : string :=
  match p with
  | cluster_plot k => "cluster_plot_k" ++ str k ++ ".png"
  | result_csv k => "result_k" ++ str k ++ ".csv"
  end.

Inductive Param : Type :=
| PInt (v : Z)
| PStr (v : string).

(** A call to the tracking service, to the plotting library or to the file
    system. *)
Inductive Effect : Type :=
| set_tracking_uri (uri : string)
| set_experiment (name : string)
| start_run (run : Run) (nested : bool)
| log_param (key : string) (value : Param)
| log_metric (key : string) (value : float)
| log_model (model : Model) (artifact_path : string)
| savefig (data_clustered : Clustered) (x y hue title : string) (file : Path)
| log_artifact (file : Path)
| remove (file : Path)
| to_csv (data_clustered : Clustered) (file : Path).

Definition DAGSHUB_URI : string :=
  "https://dagshub.com/fakihwidatmojo/Eksperimen_SML_Fakih-Widatmojo.mlflow".

(** [range(a, b)]. *)
Definition range (a b : Z) : list Z :=
  map (fun i => a + Z.of_nat i) (seq 0 (Z.to_nat (b - a))).

Definition k_range : list Z := range 2 7.

(** ** The state of a run and its commands *)

(** The list [inertia_list] of the program, and the calls its collaborators
    have completed, oldest first. *)
Record State : Type := mkState {
  inertia_list : list float;
  sink_log : list Effect
}.

Definition M (A : Type) : Type := State -> State * result A.

Definition ret {A : Type} (a : A) : M A := fun st => (st, Ok a).

Definition bindM {A B : Type} (c : M A) (k : A -> M B) : M B :=
  fun st =>
    match c st with
    | (st', Ok a) => k a st'
    | (st', Raise e) => (st', Raise e)
    end.

Definition lift {A : Type} (c : result A) : M A := fun st => (st, c).

Notation "x <-- c ;; k" := (bindM c (fun x => k))
  (at level 61, c at next level, right associativity).
Notation "c >>> k" := (bindM c (fun _ => k))
  (at level 61, right associativity).

(** [inertia_list.append(inertia)]. *)
Definition append_inertia (inertia : float) : M unit :=
  fun st => (mkState (inertia_list st ++ [inertia]) (sink_log st), Ok tt).

(** [for x in l: body(x)]: an exception leaves the loop. *)
Fixpoint for_each {A : Type} (l : list A) (body : A -> M unit) : M unit :=
  match l with
  | [] => ret tt
  | a :: l' => body a >>> for_each l' body
  end.

Section Sweep.

(** The collaborators.  [RandomState] is the state of numpy's global
    generator, which an estimator built with [random_state=None] draws
    from; [sink] answers a call with an exception or lets it complete. *)
Variable RandomState : Type.
Variable KMeans_fit :
  Z -> string -> option Z -> RandomState -> Frame -> result Model.
Variable silhouette_score : Frame -> list Z -> result float.
Variable sink : Effect -> result unit.
Variable read_csv : string -> result Frame.

Definition load_data (path : string) : result Frame := read_csv path.

Definition perform (e : Effect) : M unit :=
  fun st =>
    match sink e with
    | Ok _ => (mkState (inertia_list st) (sink_log st ++ [e]), Ok tt)
    | Raise x => (st, Raise x)
    end.

Fixpoint perform_all (es : list Effect) : M unit :=
  match es with
  | [] => ret tt
  | e :: es' => perform e >>> perform_all es'
  end.

Variable g : RandomState.

(** Lines 47-52: the fit and its two metrics. *)
Definition fit_and_score (X : Frame) (k : Z) : result (Model * float) :=
  model <- KMeans_fit k "k-means++" (Some 42) g X ;;
  score_silhouette <- silhouette_score X (labels_ model) ;;
  Ok (model, score_silhouette).

(** Lines 57-86, in order: parameters, metrics, model, and the two
    artefacts. *)
Definition reports (data : Frame) (k : Z) (model : Model) (score_silhouette : float)
  : list Effect :=
  let inertia := inertia_ model in
  let data_clustered := mkClustered data (labels_ model) in
  let plot_filename := cluster_plot k in
  let csv_filename := result_csv k in
  [ log_param "n_clusters" (PInt k);
    log_param "algorithm" (PStr "K-Means");
    log_metric "silhouette_score" score_silhouette;
    log_metric "inertia" inertia;
    log_model model ("model_k" ++ str k);
    savefig data_clustered "Recency" "Frequency" "Cluster"
      ("Cluster Distribution (K=" ++ str k ++ ") - Recency vs Frequency")
      plot_filename;
    log_artifact plot_filename;
    remove plot_filename;
    to_csv data_clustered csv_filename;
    log_artifact csv_filename;
    remove csv_filename ].

(** Lines 43-86: the body of the loop.  Leaving a [with] block ends its
    run; that call and the progress messages are not recorded. *)
Definition trial (data X : Frame) (k : Z) : M unit :=
  perform (start_run (Child k) true) >>>
  fitted <-- lift (fit_and_score X k) ;;
  append_inertia (inertia_ (fst fitted)) >>>
  perform_all (reports data k (fst fitted) (snd fitted)).

(** Lines 42-86. *)
Definition sweep (data X : Frame) : M unit :=
  for_each k_range (trial data X).

(** Lines 28-88, once the table is loaded. *)
Definition tuning (data : Frame) : M unit :=
  let X := drop "CustomerID" data in
  perform (set_tracking_uri DAGSHUB_URI) >>>
  perform (set_experiment "Eksperimen K-Means Clustering") >>>
  perform (start_run Parent false) >>>
  sweep data X.

Definition initial : State := mkState [] [].

(** [main()]: a missing file is reported and [main] returns. *)
Definition main : State * result unit :=
  match load_data "online-sales-dataset_preprocessing.csv" with
  | Raise (FileNotFoundError _) => (initial, Ok tt)
  | Raise e => (initial, Raise e)
  | Ok data => tuning data initial
  end.

End Sweep.

(** The runs that were opened and the trials that ran to their last
    statement, as the log shows them. *)
Definition opened (log : list Effect) : list Z :=
  flat_map (fun e => match e with start_run (Child k) _ => [k] | _ => [] end) log.

Definition completed (log : list Effect) : list Z :=
  flat_map (fun e => match e with remove (result_csv k) => [k] | _ => [] end) log.




End ModellingTuning.

(** * Tables and collaborators used as instances *)

Module AutomateInstances.

Import Automate.
Local Open Scope Z_scope.

Definition required_columns : list string :=
  ["CustomerID"; "InvoiceNo"; "InvoiceDate"; "Quantity"; "UnitPrice"; "Discount"]%string.

(** A parser that knows two dates and coerces every other text to [NaT]. *)
Definition two_dates (s : string) : Datetime :=
  if String.eqb s "2024-01-01" then Timestamp 1704067200000000000
  else if String.eqb s "2024-01-05" then Timestamp 1704412800000000000
  else NaT.

(** A scaler that refuses the empty matrix, as scikit-learn's input check
    does, and hands any other matrix back. *)
Definition no_sample : exn :=
  ValueError "Found array with 0 sample(s) while a minimum of 1 is required by StandardScaler.".

Definition refuse_empty (m : list Features) : result (list Features) :=
  match m with
  | [] => Raise no_sample
  | _ => Ok m
  end.

Definition sale (id : float) (no date : string) (q p d : float) : Row :=
  mkRow id (Some no) (Text date) q p d None.

Definition discounts : DataFrame :=
  mkDataFrame required_columns
    [ sale 7 "A1" "2024-01-01" 2 10 (-0.5);
      sale 7 "A2" "2024-01-01" 2 10 1.5;
      sale 8 "A3" "2024-01-05" 4 10 0.25;
      sale 9 "A4" "2024-01-05" 2 10 nan ].

Definition discounts_clean : list CleanRow :=
  map derive
    [ (7, sale 7 "A1" "2024-01-01" 2 10 (-0.5));
      (7, sale 7 "A2" "2024-01-01" 2 10 1.5);
      (8, sale 8 "A3" "2024-01-05" 4 10 0.25);
      (9, sale 9 "A4" "2024-01-05" 2 10 nan) ].

Definition status_line (status : option string) (d : float) : Row :=
  mkRow 3 (Some "B1"%string) (Parsed (Timestamp 0)) 1 4 d status.

Definition with_status (status : option string) (d : float) : DataFrame :=
  mkDataFrame (required_columns ++ ["ReturnStatus"%string]) [ status_line status d ].

Definition status_clean (status : option string) (d : float) : CleanRow :=
  derive (3, status_line status d).

Definition two_sales (no1 no2 date1 date2 : string) : DataFrame :=
  mkDataFrame required_columns
    [ sale 1 no1 date1 2 10 0; sale 1 no2 date2 1 5 0 ].

Definition without (c : string) (df : DataFrame) : DataFrame :=
  mkDataFrame (filter (fun c' => negb (String.eqb c' c)) (columns df)) (rows df).

(** One sale of no unit: the quantity filter drops it. *)
Definition nothing_sold : DataFrame :=
  mkDataFrame required_columns [ sale 7 "A1" "2024-01-01" 0 10 0 ].






End AutomateInstances.

Module TuningInstances.

Import ModellingTuning.
Local Open Scope Z_scope.

Definition has_nan (X : Frame) : bool :=
  existsb (fun c => existsb is_nan (snd c)) X.

Definition n_samples (X : Frame) : nat :=
  match X with
  | [] => 0%nat
  | c :: _ => List.length (snd c)
  end.

(** A fit that checks its input as scikit-learn does (no missing value, at
    least k lines) and then labels the lines round robin; it draws from
    the global generator only when it is given no seed. *)
Definition checked_fit (k : Z) (init : string) (random_state : option Z) (g : Z)
    (X : Frame) : result Model :=
  if has_nan X then Raise (ValueError "Input X contains NaN.")
  else if Z.of_nat (n_samples X) <? k
       then Raise (ValueError "n_samples should be >= n_clusters.")
       else
         let seed := match random_state with Some s => s | None => g end in
         Ok (mkModel k
               (map (fun i => (Z.of_nat i + seed) mod k) (seq 0 (n_samples X)))
               0 []).

Definition no_score (X : Frame) (labels : list Z) : result float := Ok 0%float.

Definition accept (e : Effect) : result unit := Ok tt.

(** Seven customers, and the same with other identifiers. *)
Definition customers (ids : list float) (r3 : float) : Frame :=
  [ ("Recency"%string,   [0; 1; r3; 0.5; -1; 0; 1]%float);
    ("Frequency"%string, [1; 0; 0; -1; 1; 0; 0.5]%float);
    ("Monetary"%string,  [0; 0; 1; 1; -1; 0.5; 0]%float);
    ("CustomerID"%string, ids) ].

Definition seven_customers : Frame :=
  customers [11; 12; 13; 14; 15; 16; 17]%float (-0.5)%float.


(** Seven customers, one of them without recency. *)
Definition one_missing : Frame :=
  customers [11; 12; 13; 14; 15; 16; 17]%float nan.

End TuningInstances.

(** * binary64 comparisons

    [x <? y] and [x <=? y] are false as soon as one side is NaN. *)

Module F64.

Local Open Scope float_scope.

Lemma SFcompare_antisym (a b : SpecFloat.spec_float) :
  SpecFloat.SFcompare b a = option_map CompOpp (SpecFloat.SFcompare a b).
Proof.
  destruct a as [sa | sa | | sa ma ea], b as [sb | sb | | sb mb eb]; simpl;
    try reflexivity;
    try (destruct sa; reflexivity); try (destruct sb; reflexivity);
    try (destruct sa, sb; reflexivity).
  destruct sa, sb; simpl; try reflexivity;
    rewrite (Z.compare_antisym ea eb);
    destruct (Z.compare ea eb); simpl; try reflexivity;
    repeat f_equal; symmetry; exact (Pos.compare_cont_antisym ma mb Eq).
Qed.

Lemma Prim2SF_nan (x : float) : is_nan x = true -> Prim2SF x = SpecFloat.S754_nan.
Proof. intros H. unfold Prim2SF. rewrite H. reflexivity. Qed.

Lemma ltb_nan_l (x y : float) : is_nan x = true -> (x <? y) = false.
Proof. intros H. rewrite FloatAxioms.ltb_spec, (Prim2SF_nan x H). reflexivity. Qed.

Lemma ltb_nan_r (x y : float) : is_nan y = true -> (x <? y) = false.
Proof.
  intros H. rewrite FloatAxioms.ltb_spec, (Prim2SF_nan y H).
  unfold SpecFloat.SFltb. destruct (Prim2SF x); reflexivity.
Qed.

Lemma ltb_true_not_nan_r (x y : float) : (x <? y) = true -> is_nan y = false.
Proof.
  intros H. destruct (is_nan y) eqn:E; [| reflexivity].
  rewrite (ltb_nan_r x y E) in H. discriminate.
Qed.

Lemma ltb_true_not_nan_l (x y : float) : (x <? y) = true -> is_nan x = false.
Proof.
  intros H. destruct (is_nan x) eqn:E; [| reflexivity].
  rewrite (ltb_nan_l x y E) in H. discriminate.
Qed.

(** [x < y] excludes [y <= x]. *)
Lemma ltb_leb_false (x y : float) : (x <? y) = true -> (y <=? x) = false.
Proof.
  rewrite FloatAxioms.ltb_spec, FloatAxioms.leb_spec. unfold SpecFloat.SFltb, SpecFloat.SFleb.
  rewrite (SFcompare_antisym (Prim2SF x) (Prim2SF y)).
  destruct (SpecFloat.SFcompare (Prim2SF x) (Prim2SF y)) as [[ | | ] | ];
    simpl; intros H; try discriminate; reflexivity.
Qed.

Lemma Prim2SF_0 : Prim2SF 0 = SpecFloat.S754_zero false.
Proof. vm_compute. reflexivity. Qed.

Lemma Prim2SF_1 : exists m e, Prim2SF 1 = SpecFloat.S754_finite false m e.
Proof. eexists; eexists. vm_compute. reflexivity. Qed.

(** A value below 0 is below 1. *)
Lemma ltb_0_leb_1 (x : float) : (x <? 0) = true -> (x <=? 1) = true.
Proof.
  rewrite FloatAxioms.ltb_spec, FloatAxioms.leb_spec, Prim2SF_0.
  destruct Prim2SF_1 as (m1 & e1 & ->).
  unfold SpecFloat.SFltb, SpecFloat.SFleb.
  destruct (Prim2SF x) as [s | s | | s m e]; simpl; try discriminate;
    destruct s; simpl; intros H; try discriminate; reflexivity.
Qed.

End F64.

(** * Properties of the preprocessing *)

Module AutomateFacts.

Import Automate AutomateInstances.
Local Open Scope Z_scope.

(** ** What cleaning keeps *)

Lemma bind_Ok {A B : Type} (c : result A) (k : A -> result B) (b : B) :
  bind c k = Ok b -> exists a, c = Ok a /\ k a = Ok b.
Proof.
  destruct c as [a | e]; simpl; intros H; [exists a; split; auto | discriminate].
Qed.

Lemma getitem_Ok (df : DataFrame) (c : string) :
  has_column df c = true -> getitem df c = Ok tt.
Proof. unfold getitem. intros ->. reflexivity. Qed.

Lemma getitem_Raise (df : DataFrame) (c : string) :
  has_column df c = false -> getitem df c = Raise (KeyError c).
Proof. unfold getitem. intros ->. reflexivity. Qed.

Lemma astype_CustomerID_spec (l : list Row) (typed : list (Z * Row)) :
  astype_CustomerID l = Ok typed ->
  map snd typed = l /\
  Forall (fun p => astype_int (CustomerID (snd p)) = Ok (fst p)) typed.
Proof.
  revert typed. induction l as [| r l IH]; simpl; intros typed H.
  - inversion H. split; constructor.
  - apply bind_Ok in H. destruct H as (b & Hb & H).
    apply bind_Ok in Hb. destruct Hb as (i & Hi & Hb). inversion Hb; subst b.
    apply bind_Ok in H. destruct H as (bs & Hbs & H). inversion H; subst typed.
    destruct (IH bs Hbs) as [Hm Hf]. simpl. split.
    + now rewrite Hm.
    + constructor; auto.
Qed.

(** The lines of a cleaned table, read off the source: each is [derive] of
    a line of the input that kept its identifier and passed the filters. *)
Lemma clean_In (df : DataFrame) (df_clean : list CleanRow) (r : CleanRow) :
  clean df = Ok df_clean -> In r df_clean ->
  exists p : Z * Row,
    r = derive p /\
    In (snd p) (rows df) /\
    is_nan (CustomerID (snd p)) = false /\
    astype_int (CustomerID (snd p)) = Ok (fst p) /\
    (has_column df "ReturnStatus" = true -> not_returned (snd p) = true) /\
    (0 <? Quantity (snd p))%float = true /\
    (0 <? UnitPrice (snd p))%float = true.
Proof.
  unfold clean, dropna_CustomerID. intros H Hin.
  apply bind_Ok in H. destruct H as (kept & Hk & H).
  apply bind_Ok in Hk. destruct Hk as (_ & _ & Hk). inversion Hk; subst kept; clear Hk.
  apply bind_Ok in H. destruct H as (typed & Ht & H).
  apply bind_Ok in H. destruct H as (_ & _ & H).
  apply bind_Ok in H. destruct H as (_ & _ & H).
  apply bind_Ok in H. destruct H as (_ & _ & H).
  inversion H; subst df_clean; clear H.
  apply in_map_iff in Hin. destruct Hin as (p & Hp & Hin).
  apply filter_In in Hin. destruct Hin as [Hin Hu].
  apply filter_In in Hin. destruct Hin as [Hin Hq].
  destruct (astype_CustomerID_spec _ _ Ht) as [Hm Hf].
  assert (Ht' : In p typed).
  { unfold filter_ReturnStatus in Hin.
    destruct (has_column df "ReturnStatus"); [apply filter_In in Hin; tauto | assumption]. }
  assert (Hrow : In (snd p) (filter (fun r => negb (is_nan (CustomerID r))) (rows df))).
  { rewrite <- Hm. now apply in_map. }
  apply filter_In in Hrow. destruct Hrow as [Hrow Hnan].
  exists p. repeat split; auto.
  - now apply negb_true_iff in Hnan.
  - rewrite Forall_forall in Hf. now apply Hf.
  - intros Hrs. unfold filter_ReturnStatus in Hin. rewrite Hrs in Hin.
    apply filter_In in Hin. tauto.
Qed.

(** ** [clip] between 0 and 1 *)

Lemma clip_below (x : float) : (x <? 0)%float = true -> clip 0 1 x = 0%float.
Proof.
  intros H. unfold clip, where_.
  rewrite (F64.ltb_true_not_nan_l _ _ H), (F64.ltb_leb_false _ _ H), (F64.ltb_0_leb_1 _ H).
  reflexivity.
Qed.

Lemma clip_above (x : float) : (1 <? x)%float = true -> clip 0 1 x = 1%float.
Proof.
  intros H. unfold clip, where_.
  rewrite (F64.ltb_true_not_nan_r _ _ H), (F64.ltb_leb_false _ _ H).
  simpl. destruct (0 <=? x)%float; reflexivity.
Qed.

Lemma clip_inside (x : float) :
  (0 <=? x)%float = true -> (x <=? 1)%float = true -> clip 0 1 x = x.
Proof.
  intros H0 H1. unfold clip, where_. rewrite H0, H1, !orb_true_r. reflexivity.
Qed.

Lemma clip_missing (x : float) : is_nan x = true -> clip 0 1 x = x.
Proof. intros H. unfold clip, where_. rewrite H. reflexivity. Qed.

Lemma clip_range (x : float) :
  is_nan x = false ->
  (0 <=? clip 0 1 x)%float = true /\ (clip 0 1 x <=? 1)%float = true.
Proof.
  intros H. unfold clip, where_. rewrite H. simpl.
  destruct (0 <=? x)%float eqn:E0, (x <=? 1)%float eqn:E1; auto.
Qed.

(** ** C2: the clipped discount and the net price *)

(** C2, as the code has it: for every line of the cleaned table,
    [DiscountClipped] is 0 when the discount is below 0, 1 when it is above
    1, the discount itself when it lies in [0, 1], and missing when the
    discount is missing; [TotalPrice] is
    [Quantity * UnitPrice * (1 - DiscountClipped)] in every case. *)
Theorem cleaned_discount_and_price (df : DataFrame) (df_clean : list CleanRow) (r : CleanRow) :
  clean df = Ok df_clean -> In r df_clean ->
  ((Discount (c_line r) <? 0)%float = true -> DiscountClipped r = 0%float) /\
  ((1 <? Discount (c_line r))%float = true -> DiscountClipped r = 1%float) /\
  ((0 <=? Discount (c_line r))%float = true -> (Discount (c_line r) <=? 1)%float = true ->
     DiscountClipped r = Discount (c_line r)) /\
  (is_nan (Discount (c_line r)) = true -> is_nan (DiscountClipped r) = true) /\
  TotalPrice r = (Quantity (c_line r) * UnitPrice (c_line r) * (1 - DiscountClipped r))%float.
Proof.
  intros H Hin. destruct (clean_In df df_clean r H Hin) as (p & -> & _).
  unfold derive; simpl.
  split; [apply clip_below | split; [apply clip_above | split; [apply clip_inside | ]]].
  split; [| reflexivity].
  intros Hn. now rewrite (clip_missing _ Hn).
Qed.

(** The third line of [discounts]: its discount 0.25 is kept, and its net
    price is 4 * 10 * 0.75. *)
Lemma cleaned_discount_and_price_witness :
  clean discounts = Ok discounts_clean /\
  DiscountClipped (derive (8, sale 8 "A3" "2024-01-05" 4 10 0.25)) = 0.25%float /\
  TotalPrice (derive (8, sale 8 "A3" "2024-01-05" 4 10 0.25)) = 30%float.
Proof.
  assert (Hc : clean discounts = Ok discounts_clean) by (vm_compute; reflexivity).
  assert (Hin : In (derive (8, sale 8 "A3" "2024-01-05" 4 10 0.25)) discounts_clean)
    by (simpl; auto).
  destruct (cleaned_discount_and_price discounts discounts_clean _ Hc Hin)
    as (_ & _ & Hd & _ & Hp).
  split; [exact Hc | split].
  - rewrite Hd; reflexivity.
  - rewrite Hp. vm_compute. reflexivity.
Defined.

(** C2, as stated, fails: a line with a missing discount survives cleaning
    with a missing [DiscountClipped] and a missing [TotalPrice], not with
    [2 * 10 * (1 - 0)]. *)
Lemma missing_discount_is_not_zero :
  exists r : CleanRow,
    In r discounts_clean /\ clean discounts = Ok discounts_clean /\
    is_nan (Discount (c_line r)) = true /\
    is_nan (DiscountClipped r) = true /\
    (TotalPrice r =? Quantity (c_line r) * UnitPrice (c_line r) * (1 - 0))%float = false.
Proof.
  exists (derive (9, sale 9 "A4" "2024-01-05" 2 10 nan)).
  split; [simpl; auto | ].
  split; [vm_compute; reflexivity | ].
  repeat split; vm_compute; reflexivity.
Qed.

(** ** C7: what holds of every cleaned line *)

(** C7, as the code has it: every line of the cleaned table has a positive
    quantity and a positive unit price; its identifier was present and is
    the integer that [astype(int)] makes of it; when the table has a
    [ReturnStatus] column the line says "Not Returned"; and its clipped
    discount lies in [0, 1] when the discount is present, and is missing
    when the discount is missing. *)
Theorem cleaned_line_invariant (df : DataFrame) (df_clean : list CleanRow) (r : CleanRow) :
  clean df = Ok df_clean -> In r df_clean ->
  (0 <? Quantity (c_line r))%float = true /\
  (0 <? UnitPrice (c_line r))%float = true /\
  is_nan (CustomerID (c_line r)) = false /\
  astype_int (CustomerID (c_line r)) = Ok (c_CustomerID r) /\
  (has_column df "ReturnStatus" = true ->
     ReturnStatus (c_line r) = Some "Not Returned"%string) /\
  (is_nan (Discount (c_line r)) = false ->
     (0 <=? DiscountClipped r)%float = true /\ (DiscountClipped r <=? 1)%float = true) /\
  (is_nan (Discount (c_line r)) = true -> is_nan (DiscountClipped r) = true).
Proof.
  intros H Hin.
  destruct (clean_In df df_clean r H Hin) as (p & -> & _ & Hid & Hint & Hrs & Hq & Hu).
  unfold derive; simpl.
  split; [exact Hq | split; [exact Hu | split; [exact Hid | split; [exact Hint | ]]]].
  split; [| split].
  - intros Hcol. specialize (Hrs Hcol). unfold not_returned in Hrs.
    destruct (ReturnStatus (snd p)) as [s |]; [| discriminate].
    apply String.eqb_eq in Hrs. now subst s.
  - intros Hn. now apply clip_range.
  - intros Hn. now rewrite (clip_missing _ Hn).
Qed.

(** A line with the discount 1.5: it is kept, with a clipped discount
    between 0 and 1. *)
Lemma cleaned_line_invariant_witness :
  clean (with_status (Some "Not Returned"%string) 1.5) =
    Ok [status_clean (Some "Not Returned"%string) 1.5] /\
  (0 <=? clip 0 1 1.5)%float = true /\ (clip 0 1 1.5 <=? 1)%float = true.
Proof.
  assert (Hc : clean (with_status (Some "Not Returned"%string) 1.5) =
               Ok [status_clean (Some "Not Returned"%string) 1.5])
    by (vm_compute; reflexivity).
  split; [exact Hc | ].
  destruct (cleaned_line_invariant _ _ _ Hc (or_introl eq_refl))
    as (_ & _ & _ & _ & _ & Hd & _).
  apply Hd. vm_compute. reflexivity.
Defined.

(** C7, as stated, fails on the discount: a line whose discount is missing
    is kept, and its clipped discount is not at least 0. *)
Lemma missing_discount_survives_cleaning :
  clean (with_status (Some "Not Returned"%string) nan) =
    Ok [status_clean (Some "Not Returned"%string) nan] /\
  (0 <=? DiscountClipped (status_clean (Some "Not Returned"%string) nan))%float = false.
Proof. split; vm_compute; reflexivity. Qed.

(** ** C8: the two-line example *)

Lemma two_sales_clean (no1 no2 : string) (d1 d2 : Datetime) :
  clean (mkDataFrame required_columns
           [ mkRow 1 (Some no1) (Parsed d1) 2 10 0 None;
             mkRow 1 (Some no2) (Parsed d2) 1 5 0 None ]) =
  Ok [ mkCleanRow 1 (mkRow 1 (Some no1) (Parsed d1) 2 10 0 None) 0 20;
       mkCleanRow 1 (mkRow 1 (Some no2) (Parsed d2) 1 5 0 None) 0 5 ].
Proof. vm_compute. reflexivity. Qed.

(** C8: two lines of customer 1, of 2 units at 10 and 1 unit at 5 without
    discount, dated D1 < D2, in a table without [ReturnStatus], aggregate
    to the single line: customer 1, frequency 2, monetary 25, and recency
    the whole days between the snapshot [max(D1, D2) + 1 day] and D2,
    which is 1. *)
Theorem two_sales_rfm (parse_datetime : string -> Datetime)
    (no1 no2 date1 date2 : string) (D1 D2 : Z) :
  parse_datetime date1 = Timestamp D1 ->
  parse_datetime date2 = Timestamp D2 ->
  D1 < D2 ->
  rfm_of_raw parse_datetime (two_sales no1 no2 date1 date2) =
    Ok [ mkRfmRow 1
           (days (sub_datetime (add_days (Timestamp (Z.max D1 D2)) 1) (Timestamp D2)))
           2 25 ] /\
  days (sub_datetime (add_days (Timestamp (Z.max D1 D2)) 1) (Timestamp D2)) = Some 1.
Proof.
  intros H1 H2 Hlt. split.
  - unfold rfm_of_raw, convert_InvoiceDate, two_sales, sale.
    rewrite getitem_Ok by reflexivity. simpl bind. simpl map.
    unfold set_InvoiceDate; simpl. rewrite H1, H2.
    unfold rfm_stage. rewrite two_sales_clean. simpl bind.
    unfold rfm_table. rewrite getitem_Ok by reflexivity. simpl bind.
    unfold snapshot_date, groupby; simpl.
    unfold agg, date_of; simpl.
    rewrite (Z.max_r D1 D2) by lia.
    assert (Hs : nansum [20%float; 5%float] = 25%float) by (vm_compute; reflexivity).
    rewrite Hs. reflexivity.
  - simpl. rewrite (Z.max_r D1 D2) by lia.
    replace (D2 + 86400000000000 - D2) with ns_per_day by (unfold ns_per_day; lia).
    reflexivity.
Qed.

(** The example with the dates 2024-01-01 and 2024-01-05. *)
Lemma two_sales_rfm_witness :
  rfm_of_raw two_dates (two_sales "INV1" "INV2" "2024-01-01" "2024-01-05") =
    Ok [ mkRfmRow 1 (Some 1) 2 25 ].
Proof.
  destruct (two_sales_rfm two_dates "INV1" "INV2" "2024-01-01" "2024-01-05"
              1704067200000000000 1704412800000000000 eq_refl eq_refl eq_refl)
    as [Hr Hd].
  rewrite Hr, Hd. reflexivity.
Defined.

(** ** C4: a column that the table lacks *)

Lemma castable_astype (l : list Row) :
  forallb (fun r => is_nan (CustomerID r) || negb (raised (astype_int (CustomerID r)))) l = true ->
  exists typed,
    astype_CustomerID (filter (fun r => negb (is_nan (CustomerID r))) l) = Ok typed.
Proof.
  induction l as [| r l IH]; simpl; intros H.
  - exists []. reflexivity.
  - apply andb_true_iff in H. destruct H as [Hr Hl].
    destruct (IH Hl) as (typed & Ht).
    destruct (is_nan (CustomerID r)) eqn:En; simpl.
    + exists typed. exact Ht.
    + simpl in Hr. unfold astype_CustomerID in *. simpl.
      destruct (astype_int (CustomerID r)) as [i | e]; [| discriminate].
      simpl. rewrite Ht. simpl. eexists. reflexivity.
Qed.

Section MissingColumn.

Variable parse_datetime : string -> Datetime.
Variable log1p : float -> float.
Variable fit_transform : list Features -> result (list Features).

Lemma convert_columns (df df' : DataFrame) :
  convert_InvoiceDate parse_datetime df = Ok df' ->
  columns df' = columns df /\
  rows df' =
    map (fun r => set_InvoiceDate r (Parsed (to_datetime parse_datetime (InvoiceDate r))))
        (rows df).
Proof.
  unfold convert_InvoiceDate, getitem.
  destruct (has_column df "InvoiceDate"); simpl; intros H; inversion H.
  split; reflexivity.
Qed.

Lemma convert_has_column (df df' : DataFrame) (c : string) :
  convert_InvoiceDate parse_datetime df = Ok df' ->
  has_column df' c = has_column df c.
Proof.
  intros H. destruct (convert_columns _ _ H) as [Hc _].
  unfold has_column. now rewrite Hc.
Qed.

Lemma convert_castable (df df' : DataFrame) :
  convert_InvoiceDate parse_datetime df = Ok df' -> castable df' = castable df.
Proof.
  intros H. destruct (convert_columns _ _ H) as [_ Hr].
  unfold castable. rewrite Hr. unfold set_InvoiceDate. clear Hr.
  induction (rows df) as [| r l IH]; simpl; [reflexivity |].
  now rewrite IH.
Qed.

(** What [clean] does, by the columns the table has. *)
Lemma clean_by_columns (df : DataFrame) :
  clean df =
    if negb (has_column df "CustomerID") then Raise (KeyError "CustomerID")
    else
      match astype_CustomerID (filter (fun r => negb (is_nan (CustomerID r))) (rows df)) with
      | Raise e => Raise e
      | Ok typed =>
          if negb (has_column df "Quantity") then Raise (KeyError "Quantity")
          else if negb (has_column df "UnitPrice") then Raise (KeyError "UnitPrice")
          else if negb (has_column df "Discount") then Raise (KeyError "Discount")
          else Ok (map derive
                     (filter (fun p => (0 <? UnitPrice (snd p))%float)
                        (filter (fun p => (0 <? Quantity (snd p))%float)
                           (filter_ReturnStatus df typed))))
      end.
Proof.
  unfold clean, dropna_CustomerID, getitem.
  destruct (has_column df "CustomerID"); simpl; [| reflexivity].
  destruct (astype_CustomerID _) as [typed | e]; simpl; [| reflexivity].
  destruct (has_column df "Quantity"); simpl; [| reflexivity].
  destruct (has_column df "UnitPrice"); simpl; [| reflexivity].
  destruct (has_column df "Discount"); simpl; reflexivity.
Qed.

(** C4, as the code has it: when the first column that the table lacks, in
    the order in which the function names the columns, is [c], the call
    raises [KeyError c], provided that, for a column read after the cast
    of line 27, every identifier present can be cast.  For the five
    columns other than [InvoiceNo] the error leaves the cleaning, and no
    cleaned table exists; for [InvoiceNo] the cleaning completes and the
    error leaves the aggregation. *)
Theorem first_missing_column_raises (df : DataFrame) (c : string) :
  first_missing df = Some c ->
  (In c ["Quantity"; "UnitPrice"; "Discount"; "InvoiceNo"]%string -> castable df = true) ->
  snd (preprocess_data parse_datetime log1p fit_transform df) = Raise (KeyError c) /\
  (c <> "InvoiceNo"%string -> cleaner parse_datetime df = Raise (KeyError c)) /\
  (c = "InvoiceNo"%string -> exists df_clean, cleaner parse_datetime df = Ok df_clean).
Proof.
  unfold first_missing, read_order, preprocess_data, cleaner. simpl find.
  destruct (has_column df "InvoiceDate") eqn:E1; simpl negb; cbv iota.
  2:{ intros Hc _. inversion Hc; subst c. unfold convert_InvoiceDate.
      rewrite (getitem_Raise _ _ E1). simpl.
      repeat split; auto. intros Habs; discriminate. }
  destruct (convert_InvoiceDate parse_datetime df) as [df' | e] eqn:Ec.
  2:{ unfold convert_InvoiceDate in Ec. rewrite (getitem_Ok _ _ E1) in Ec. discriminate. }
  simpl snd. simpl bind.
  unfold after_conversion, rfm_stage. rewrite (clean_by_columns df').
  rewrite !(convert_has_column _ _ _ Ec).
  destruct (has_column df "CustomerID") eqn:E2; simpl negb; cbv iota.
  2:{ intros Hc _. inversion Hc; subst c. simpl.
      repeat split; auto. intros Habs; discriminate. }
  assert (Hcast : castable df = true ->
            exists typed,
              astype_CustomerID (filter (fun r => negb (is_nan (CustomerID r))) (rows df'))
              = Ok typed).
  { intros Hk. apply castable_astype. rewrite <- (convert_castable _ _ Ec) in Hk. exact Hk. }
  destruct (has_column df "Quantity") eqn:E3; simpl negb; cbv iota.
  2:{ intros Hc Hk. inversion Hc; subst c.
      destruct (Hcast (Hk (or_introl eq_refl))) as (typed & ->). simpl.
      repeat split; auto. intros Habs; discriminate. }
  destruct (has_column df "UnitPrice") eqn:E4; simpl negb; cbv iota.
  2:{ intros Hc Hk. inversion Hc; subst c.
      destruct (Hcast (Hk (or_intror (or_introl eq_refl)))) as (typed & ->). simpl.
      repeat split; auto. intros Habs; discriminate. }
  destruct (has_column df "Discount") eqn:E5; simpl negb; cbv iota.
  2:{ intros Hc Hk. inversion Hc; subst c.
      destruct (Hcast (Hk (or_intror (or_intror (or_introl eq_refl))))) as (typed & ->). simpl.
      repeat split; auto. intros Habs; discriminate. }
  destruct (has_column df "InvoiceNo") eqn:E6; simpl negb; cbv iota.
  1:{ intros Hc; discriminate. }
  intros Hc Hk. inversion Hc; subst c.
  destruct (Hcast (Hk (or_intror (or_intror (or_intror (or_introl eq_refl)))))) as (typed & ->).
  simpl. unfold rfm_table.
  rewrite (getitem_Raise df' "InvoiceNo")
    by (rewrite (convert_has_column _ _ _ Ec); exact E6).
  simpl. split; [reflexivity | split].
  - intros Habs. now contradiction Habs.
  - intros _. eexists. reflexivity.
Qed.

End MissingColumn.

(** The table [discounts] without its [Quantity] column. *)
Lemma first_missing_column_raises_witness :
  snd (preprocess_data two_dates (fun x => x) refuse_empty (without "Quantity" discounts))
    = Raise (KeyError "Quantity") /\
  cleaner two_dates (without "Quantity" discounts) = Raise (KeyError "Quantity").
Proof.
  assert (Hn : "Quantity"%string <> "InvoiceNo"%string) by discriminate.
  destruct (first_missing_column_raises two_dates (fun x => x) refuse_empty
              (without "Quantity" discounts) "Quantity"
              eq_refl (fun _ => eq_refl)) as (Hr & Hc & _).
  split; [exact Hr | exact (Hc Hn)].
Defined.

(** C4, as stated, fails for [InvoiceNo]: on a table that lacks it the
    cleaning runs to its end and yields the cleaned table; the [KeyError]
    is raised afterwards, by the aggregation. *)
Lemma missing_InvoiceNo_passes_cleaning :
  has_column (without "InvoiceNo" discounts) "InvoiceNo" = false /\
  raised (cleaner two_dates (without "InvoiceNo" discounts)) = false /\
  option_map (@List.length CleanRow)
    (match cleaner two_dates (without "InvoiceNo" discounts) with
     | Ok l => Some l | Raise _ => None end) = Some 4%nat /\
  snd (preprocess_data two_dates (fun x => x) refuse_empty (without "InvoiceNo" discounts))
    = Raise (KeyError "InvoiceNo").
Proof. repeat split; vm_compute; reflexivity. Qed.

(** ** C3: no line survives the cleaning *)

Section EmptyClean.

Variable parse_datetime : string -> Datetime.
Variable log1p : float -> float.
Variable fit_transform : list Features -> result (list Features).
Variable path_exists : string -> bool.
Variable read_csv : string -> result DataFrame.

Lemma preprocess_data_snd (df df' : DataFrame) :
  convert_InvoiceDate parse_datetime df = Ok df' ->
  snd (preprocess_data parse_datetime log1p fit_transform df) =
  (df_clean <- clean df' ;; rfm <- rfm_table df' df_clean ;;
   scale log1p fit_transform rfm).
Proof.
  intros H. unfold preprocess_data. rewrite H. simpl.
  unfold after_conversion, rfm_stage.
  destruct (clean df') as [df_clean | e]; reflexivity.
Qed.

(** C3, as the code has it: when no line survives the cleaning, the
    snapshot date is [NaT] and, on a table that has the column
    [InvoiceNo], the aggregation returns the RFM table with no line,
    neither raising.  The call ends at line 64: the [Recency] column of a
    table without lines is a column of dates, and [np.log1p] raises
    [TypeError] on it, whatever the scaler would do with an empty matrix
    (on a table without [InvoiceNo] the aggregation has raised [KeyError]
    before).  [main] ends with that exception and writes no table. *)
Theorem no_clean_line_aborts_at_log1p (df : DataFrame) :
  load_data path_exists read_csv input_path = Ok df ->
  cleaner parse_datetime df = Ok [] ->
  snapshot_date [] = NaT /\
  (has_column df "InvoiceNo" = true -> rfm_of_raw parse_datetime df = Ok []) /\
  main parse_datetime log1p fit_transform path_exists read_csv
  = Aborted (if has_column df "InvoiceNo" then log1p_of_dates else KeyError "InvoiceNo").
Proof.
  intros Hload Hclean. unfold cleaner in Hclean.
  apply bind_Ok in Hclean. destruct Hclean as (df' & Hconv & Hclean).
  pose proof (convert_has_column _ _ _ "InvoiceNo"%string Hconv) as Hcol.
  split; [reflexivity | split].
  - intros Hno. unfold rfm_of_raw, rfm_stage. rewrite Hconv. simpl. rewrite Hclean. simpl.
    unfold rfm_table. rewrite getitem_Ok by (rewrite Hcol; exact Hno).
    reflexivity.
  - unfold main. rewrite Hload.
    rewrite (preprocess_data_snd _ _ Hconv), Hclean. simpl.
    unfold rfm_table, getitem. rewrite Hcol.
    destruct (has_column df "InvoiceNo"); reflexivity.
Qed.

End EmptyClean.

(** The table [nothing_sold], with a scaler that would accept any
    matrix. *)
Lemma no_clean_line_aborts_at_log1p_witness :
  rfm_of_raw two_dates nothing_sold = Ok [] /\
  main two_dates (fun x => x) (fun m => Ok m) (fun _ => true) (fun _ => Ok nothing_sold)
    = Aborted log1p_of_dates.
Proof.
  destruct (no_clean_line_aborts_at_log1p two_dates (fun x => x) (fun m => Ok m)
              (fun _ => true) (fun _ => Ok nothing_sold) nothing_sold
              eq_refl eq_refl) as (_ & Hr & Hm).
  split; [exact (Hr eq_refl) | exact Hm].
Defined.

(** C3, as stated, fails: with no cleaned line, lines 46-58 raise nothing.
    The snapshot date is [NaT] and the aggregation returns an RFM table,
    the empty one; the exception that ends the call is the [TypeError] of
    [np.log1p] at line 64. *)
Lemma empty_snapshot_is_NaT_not_an_error :
  cleaner two_dates nothing_sold = Ok [] /\
  snapshot_date [] = NaT /\
  rfm_table nothing_sold [] = Ok [] /\
  snd (preprocess_data two_dates (fun x => x) (fun m => Ok m) nothing_sold)
    = Raise log1p_of_dates.
Proof. repeat split; vm_compute; reflexivity. Qed.

(** ** C9: the caller's table after the call *)

Lemma set_InvoiceDate_same (r : Row) : set_InvoiceDate r (InvoiceDate r) = r.
Proof. destruct r; reflexivity. Qed.

(** C9, as the code has it: the call keeps the columns and the lines of
    the caller's table, and every cell of it outside [InvoiceDate]; the
    cells of [InvoiceDate] are replaced by their parsed values (a cell
    that is already a datetime keeps its value), whatever the call returns
    or raises afterwards.  A table without that column is left as it
    was. *)
Theorem caller_table_after_call (parse_datetime : string -> Datetime)
    (log1p : float -> float) (fit_transform : list Features -> result (list Features))
    (df : DataFrame) :
  columns (fst (preprocess_data parse_datetime log1p fit_transform df)) = columns df /\
  Forall2 (fun r r' =>
             r' = set_InvoiceDate r
                    (if has_column df "InvoiceDate"
                     then Parsed (to_datetime parse_datetime (InvoiceDate r))
                     else InvoiceDate r))
          (rows df)
          (rows (fst (preprocess_data parse_datetime log1p fit_transform df))).
Proof.
  unfold preprocess_data, convert_InvoiceDate, getitem.
  destruct (has_column df "InvoiceDate"); simpl.
  - split; [reflexivity |].
    induction (rows df) as [| r l IH]; simpl; constructor; auto.
  - split; [reflexivity |].
    induction (rows df) as [| r l IH]; constructor; auto.
    symmetry. apply set_InvoiceDate_same.
Qed.

(** C9, as stated, fails: the texts of the caller's [InvoiceDate] column
    are datetimes after the call. *)
Lemma caller_InvoiceDate_is_replaced :
  map InvoiceDate (rows discounts)
  = [ Text "2024-01-01"; Text "2024-01-01"; Text "2024-01-05"; Text "2024-01-05" ] /\
  map InvoiceDate
    (rows (fst (preprocess_data two_dates (fun x => x) refuse_empty discounts)))
  = [ Parsed (Timestamp 1704067200000000000); Parsed (Timestamp 1704067200000000000);
      Parsed (Timestamp 1704412800000000000); Parsed (Timestamp 1704412800000000000) ] /\
  raised (snd (preprocess_data two_dates (fun x => x) refuse_empty discounts)) = false.
Proof. repeat split; vm_compute; reflexivity. Qed.

End AutomateFacts.

(** * Properties of the sweep *)

Module TuningFacts.

Import ModellingTuning TuningInstances.
Local Open Scope Z_scope.

Lemma opened_app (l l' : list Effect) : opened (l ++ l') = opened l ++ opened l'.
Proof. apply flat_map_app. Qed.

Lemma completed_app (l l' : list Effect) : completed (l ++ l') = completed l ++ completed l'.
Proof. apply flat_map_app. Qed.

Section SweepFacts.

Variable RandomState : Type.
Variable KMeans_fit :
  Z -> string -> option Z -> RandomState -> Frame -> result Model.
Variable silhouette_score : Frame -> list Z -> result float.
Variable sink : Effect -> result unit.
Variable g : RandomState.

Local Abbreviation perform_all := (ModellingTuning.perform_all sink).
Local Abbreviation fit_and_score :=
  (ModellingTuning.fit_and_score RandomState KMeans_fit silhouette_score g).
Local Abbreviation trial :=
  (ModellingTuning.trial RandomState KMeans_fit silhouette_score sink g).
Local Abbreviation sweep :=
  (ModellingTuning.sweep RandomState KMeans_fit silhouette_score sink g).
Local Abbreviation tuning :=
  (ModellingTuning.tuning RandomState KMeans_fit silhouette_score sink g).

(** [perform_all] completes a prefix of its calls, all of them exactly when
    it returns, and leaves [inertia_list] alone. *)
Lemma perform_all_prefix (es : list Effect) (st : State) :
  exists done rest,
    es = done ++ rest /\
    sink_log (fst (perform_all es st)) = sink_log st ++ done /\
    inertia_list (fst (perform_all es st)) = inertia_list st /\
    (snd (perform_all es st) = Ok tt -> rest = []) /\
    (forall e, snd (perform_all es st) = Raise e -> rest <> []).
Proof.
  revert st. induction es as [| e es IH]; intros st.
  - exists [], []. simpl. rewrite app_nil_r. repeat split; auto. intros e H; discriminate.
  - simpl. unfold bindM, perform. destruct (sink e) as [[] | x] eqn:Es.
    + destruct (IH (mkState (inertia_list st) (sink_log st ++ [e])))
        as (done & rest & -> & Hlog & Hin & Hok & Hraise).
      exists (e :: done), rest. simpl in Hlog, Hin.
      destruct (perform_all (done ++ rest) _) as [st' [[] | x]] eqn:Ep; simpl in *;
        rewrite Hlog, <- app_assoc; repeat split; auto.
    + exists [], (e :: es). simpl. rewrite app_nil_r. repeat split; auto.
      * intros H; discriminate.
      * intros x' _ H; discriminate.
Qed.

(** The calls of a trial that is not at its end complete no trial. *)
Lemma reports_prefix_not_completed (data : Frame) (k : Z) (model : Model) (s : float)
    (done rest : list Effect) :
  reports data k model s = done ++ rest -> rest <> [] ->
  completed done = [] /\ opened done = [].
Proof.
  intros H Hrest.
  destruct (exists_last Hrest) as (rest' & x & ->).
  unfold reports in H.
  match type of H with
  | ?a :: ?b :: ?c :: ?d :: ?e :: ?f :: ?g' :: ?h :: ?i :: ?j :: [?l] = _ =>
      change ([a; b; c; d; e; f; g'; h; i; j] ++ [l] = done ++ rest' ++ [x]) in H
  end.
  rewrite app_assoc in H. apply app_inj_tail in H. destruct H as [H _].
  split.
  - assert (Hc : completed (done ++ rest') = []) by (rewrite <- H; reflexivity).
    rewrite completed_app in Hc. now apply app_eq_nil in Hc.
  - assert (Hc : opened (done ++ rest') = []) by (rewrite <- H; reflexivity).
    rewrite opened_app in Hc. now apply app_eq_nil in Hc.
Qed.

(** One pass through the body of the loop: either it returns, having
    opened and completed the trial of [k] and appended one inertia, or it
    raises, having completed no trial. *)
Lemma trial_run (data X : Frame) (k : Z) (st st' : State) (r : result unit) :
  trial data X k st = (st', r) ->
  exists new,
    sink_log st' = sink_log st ++ new /\
    (r = Ok tt ->
       opened new = [k] /\ completed new = [k] /\
       List.length (inertia_list st') = S (List.length (inertia_list st))) /\
    (forall e, r = Raise e ->
       completed new = [] /\ (opened new = [] \/ opened new = [k])).
Proof.
  unfold ModellingTuning.trial. unfold bindM at 1. unfold perform at 1.
  destruct (sink (start_run (Child k) true)) as [[] | x]; cbv beta iota.
  2:{ intros Et; inversion Et; subst st' r. exists []. rewrite app_nil_r.
      split; [reflexivity | split; [intros H; discriminate | intros e _; auto]]. }
  unfold bindM at 1. unfold lift at 1.
  destruct (fit_and_score X k) as [[model s] | x]; cbv beta iota.
  2:{ intros Et; inversion Et; subst st' r. exists [start_run (Child k) true].
      split; [reflexivity | split; [intros H; discriminate | intros e _; auto]]. }
  unfold bindM at 1. unfold append_inertia at 1. cbv beta iota.
  cbn [fst snd sink_log inertia_list].
  set (st1 := mkState _ _).
  destruct (perform_all_prefix (reports data k model s) st1)
    as (done & rest & Hes & Hlog & Hin & Hok & Hraise).
  intros Et. rewrite Et in Hlog, Hin, Hok, Hraise. cbn [fst snd] in Hlog, Hin, Hok, Hraise.
  exists (start_run (Child k) true :: done).
  rewrite Hlog. subst st1. cbn [sink_log]. rewrite <- app_assoc. cbn [app].
  split; [reflexivity | split].
  - intros Hr. specialize (Hok Hr). subst rest. rewrite app_nil_r in Hes. subst done.
    rewrite Hin. cbn [inertia_list]. rewrite length_app. cbn [List.length].
    split; [reflexivity | split; [reflexivity | lia]].
  - intros e Hr. specialize (Hraise e Hr).
    destruct (reports_prefix_not_completed _ _ _ _ _ _ Hes Hraise) as [Hc Ho].
    change (completed (start_run (Child k) true :: done)) with (completed done).
    change (opened (start_run (Child k) true :: done)) with (k :: opened done).
    rewrite Hc, Ho. auto.
Qed.

(** The loop over any list of cluster counts. *)
Lemma for_each_trial (data X : Frame) (ks : list Z) (st : State) :
  exists (new : list Effect) (n : nat),
    sink_log (fst (for_each ks (trial data X) st)) = sink_log st ++ new /\
    completed new = firstn n ks /\
    (n <= List.length ks)%nat /\
    (snd (for_each ks (trial data X) st) = Ok tt ->
       n = List.length ks /\ opened new = ks /\
       List.length (inertia_list (fst (for_each ks (trial data X) st)))
         = (List.length (inertia_list st) + List.length ks)%nat) /\
    (forall e, snd (for_each ks (trial data X) st) = Raise e ->
       (n < List.length ks)%nat /\
       (opened new = firstn n ks \/ opened new = firstn (S n) ks)).
Proof.
  revert st. induction ks as [| k ks IH]; intros st.
  - exists [], 0%nat. simpl. rewrite app_nil_r.
    repeat split; auto; try lia; discriminate.
  - simpl for_each. unfold bindM.
    destruct (trial data X k st) as [st1 r1] eqn:Et.
    destruct (trial_run _ _ _ _ _ _ Et) as (new1 & Hlog1 & Hok1 & Hraise1).
    destruct r1 as [[] | x]; cbv beta iota; cbn [fst snd].
    + destruct (Hok1 eq_refl) as (Ho1 & Hc1 & Hi1).
      destruct (IH st1) as (new2 & n & Hlog2 & Hc2 & Hn & Hok2 & Hraise2).
      exists (new1 ++ new2), (S n).
      rewrite Hlog2, Hlog1, <- app_assoc, completed_app, opened_app, Hc1, Hc2, Ho1.
      simpl. split; [reflexivity | split; [reflexivity | split; [lia |]]].
      split.
      * intros Hr. destruct (Hok2 Hr) as (-> & -> & Hi2).
        rewrite Hi2, Hi1. repeat split; auto; lia.
      * intros e Hr. destruct (Hraise2 e Hr) as (Hlt & [Ho | Ho]); rewrite Ho;
          split; auto; lia.
    + destruct (Hraise1 x eq_refl) as (Hc1 & Ho1).
      exists new1, 0%nat. rewrite Hlog1, Hc1. simpl.
      split; [reflexivity | split; [reflexivity | split; [lia |]]].
      split; [intros H; discriminate |].
      intros e _. split; [lia |]. destruct Ho1 as [-> | ->]; auto.
Qed.

(** ** C1: the sweep over k = 2..6 *)

(** C1, as the code has it: the sweep takes k = 2, 3, 4, 5, 6 in this
    order.  The trials it completes are those of the first [n] values of
    k, for some [n <= 5].  When it returns, [n = 5]: all five runs were
    opened and completed, and five inertias were appended.  When an
    exception leaves it, [n < 5]: the exception was raised in the trial
    that follows the [n] completed ones, and no later k was tried. *)
Theorem sweep_stops_at_first_failure (data X : Frame) (st : State) :
  exists (new : list Effect) (n : nat),
    sink_log (fst (sweep data X st)) = sink_log st ++ new /\
    completed new = firstn n k_range /\
    (n <= 5)%nat /\
    (snd (sweep data X st) = Ok tt ->
       n = 5%nat /\ opened new = [2; 3; 4; 5; 6] /\ completed new = [2; 3; 4; 5; 6] /\
       List.length (inertia_list (fst (sweep data X st)))
         = (List.length (inertia_list st) + 5)%nat) /\
    (forall e, snd (sweep data X st) = Raise e ->
       (n < 5)%nat /\
       (opened new = firstn n k_range \/ opened new = firstn (S n) k_range)).
Proof.
  unfold ModellingTuning.sweep.
  destruct (for_each_trial data X k_range st) as (new & n & Hlog & Hc & Hn & Hok & Hraise).
  exists new, n. change (List.length k_range) with 5%nat in *.
  split; [exact Hlog | split; [exact Hc | split; [exact Hn | split]]].
  - intros Hr. destruct (Hok Hr) as (-> & Ho & Hi).
    split; [reflexivity | split; [exact Ho | split; [exact Hc | exact Hi]]].
  - exact Hraise.
Qed.

(** ** C10: the identifiers do not reach the fit *)










End SweepFacts.

(** C1, as stated, fails: on seven customers of which one has a missing
    feature the fit of k = 2 raises, the exception leaves the sweep, and
    nothing is recorded for k = 3, 4, 5, 6: their runs are never opened. *)
Lemma failed_fit_ends_the_sweep :
  n_samples one_missing = 7%nat /\
  sweep Z checked_fit no_score accept 0 one_missing
        (drop "CustomerID" one_missing) initial
  = (mkState [] [start_run (Child 2) true], Raise (ValueError "Input X contains NaN.")).
Proof. split; vm_compute; reflexivity. Qed.


End TuningFacts.

(** * More of the preprocessing: which lines are kept, how the cleaning
      fails, and what the grouping computes *)

Module CleaningTerms.

Import Automate.
Local Open Scope Z_scope.

(** The four conditions of lines 24-35, in the order of the source. *)
Definition survives (df : DataFrame) (r : Row) : bool :=
  negb (is_nan (CustomerID r))
  && (if has_column df "ReturnStatus" then not_returned r else true)
  && (0 <? Quantity r)%float
  && (0 <? UnitPrice r)%float.

(** The columns that the cleaning names. *)
Definition cleaning_columns : list string :=
  ["CustomerID"; "Quantity"; "UnitPrice"; "Discount"]%string.

(** The cleaned lines of one customer, in the order of the table. *)
Definition customer_lines (k : Z) (t : list CleanRow) : list CleanRow :=
  filter (fun r => c_CustomerID r =? k) t.

(** The lines filed under a key in the list of groups. *)
Fixpoint group_of (k : Z) (gs : list (Z * list CleanRow)) : list CleanRow :=
  match gs with
  | [] => []
  | (k', g) :: gs' => if k =? k' then g else group_of k gs'
  end.

Definition sum_Z (l : list Z) : Z := fold_right Z.add 0 l.

End CleaningTerms.

Module CleaningFacts.

Import Automate AutomateInstances CleaningTerms.
Local Open Scope Z_scope.

Lemma filter_filter {A : Type} (f g : A -> bool) (l : list A) :
  filter f (filter g l) = filter (fun x => g x && f x) l.
Proof.
  induction l as [| a l IH]; simpl; [reflexivity |].
  destruct (g a); simpl; [destruct (f a); now rewrite IH | exact IH].
Qed.

Lemma filter_on_snd {A B : Type} (f : B -> bool) (l : list (A * B)) :
  map snd (filter (fun p => f (snd p)) l) = filter f (map snd l).
Proof.
  induction l as [| a l IH]; simpl; [reflexivity |].
  destruct (f (snd a)); simpl; now rewrite IH.
Qed.

Lemma clean_Ok_typed (df : DataFrame) (df_clean : list CleanRow) :
  clean df = Ok df_clean ->
  exists typed,
    astype_CustomerID (filter (fun r => negb (is_nan (CustomerID r))) (rows df)) = Ok typed /\
    df_clean = map derive
                 (filter (fun p => (0 <? UnitPrice (snd p))%float)
                    (filter (fun p => (0 <? Quantity (snd p))%float)
                       (filter_ReturnStatus df typed))).
Proof.
  rewrite AutomateFacts.clean_by_columns.
  destruct (negb (has_column df "CustomerID")); [discriminate |].
  destruct (astype_CustomerID _) as [typed | e]; [| discriminate].
  destruct (negb (has_column df "Quantity")); [discriminate |].
  destruct (negb (has_column df "UnitPrice")); [discriminate |].
  destruct (negb (has_column df "Discount")); [discriminate |].
  intros H. inversion H. exists typed. split; reflexivity.
Qed.

(** The cleaning keeps exactly the lines that have an identifier, say
    "Not Returned" when the table has a [ReturnStatus] column, and have a
    positive quantity and a positive unit price: all of them, no other,
    unchanged and in the order of the table. *)
Theorem clean_keeps_exactly (df : DataFrame) (df_clean : list CleanRow) :
  clean df = Ok df_clean ->
  map c_line df_clean = filter (survives df) (rows df).
Proof.
  intros H. destruct (clean_Ok_typed df df_clean H) as (typed & Ht & ->).
  destruct (AutomateFacts.astype_CustomerID_spec _ _ Ht) as [Hm _].
  rewrite map_map. simpl.
  change (fun x : Z * Row => snd x) with (@snd Z Row).
  rewrite (filter_on_snd (fun r => (0 <? UnitPrice r)%float)).
  rewrite (filter_on_snd (fun r => (0 <? Quantity r)%float)).
  assert (Hrs : map snd (filter_ReturnStatus df typed)
                = filter (fun r => if has_column df "ReturnStatus" then not_returned r else true)
                         (map snd typed)).
  { unfold filter_ReturnStatus. destruct (has_column df "ReturnStatus").
    - apply (filter_on_snd not_returned).
    - symmetry. apply forallb_filter_id. apply forallb_forall. reflexivity. }
  rewrite Hrs, Hm, !filter_filter. unfold survives.
  apply filter_ext. intros r. now rewrite !andb_assoc.
Qed.

Definition clean_keeps_exactly_witness_lines : list Row :=
  [ sale 7 "A1" "2024-01-01" 2 10 0;
    sale nan "A2" "2024-01-01" 2 10 0;
    sale 8 "A3" "2024-01-05" 0 10 0;
    sale 9 "A4" "2024-01-05" 1 (-3) 0;
    sale 7 "A5" "2024-01-05" 1 3 0.5 ].

(** Five lines, of which the second has no identifier, the third no unit
    and the fourth a negative price: the first and the last are kept. *)
Lemma clean_keeps_exactly_witness :
  option_map (map c_line)
    (match clean (mkDataFrame required_columns clean_keeps_exactly_witness_lines) with
     | Ok l => Some l | Raise _ => None end)
  = Some [ sale 7 "A1" "2024-01-01" 2 10 0; sale 7 "A5" "2024-01-05" 1 3 0.5 ].
Proof.
  destruct (clean (mkDataFrame required_columns clean_keeps_exactly_witness_lines))
    as [l | e] eqn:E; [| vm_compute in E; discriminate].
  simpl. rewrite (clean_keeps_exactly _ _ E). vm_compute. reflexivity.
Defined.

(** ** How the cleaning fails *)

Lemma Prim2SF_infinity : Prim2SF infinity = SpecFloat.S754_infinity false.
Proof. vm_compute. reflexivity. Qed.

Lemma nan_not_infinite (x : float) : is_nan x = true -> is_infinity x = false.
Proof.
  intros H. unfold is_infinity.
  rewrite FloatAxioms.eqb_spec, FloatAxioms.abs_spec, (F64.Prim2SF_nan x H).
  reflexivity.
Qed.

Lemma zero_not_infinite (x : float) : PrimFloat.is_zero x = true -> is_infinity x = false.
Proof.
  unfold PrimFloat.is_zero, is_infinity.
  rewrite !FloatAxioms.eqb_spec, FloatAxioms.abs_spec, Prim2SF_infinity.
  change (Prim2SF zero) with (Prim2SF 0). rewrite F64.Prim2SF_0.
  destruct (Prim2SF x) as [s | s | | s m e]; simpl; try discriminate; try reflexivity.
  destruct s; discriminate.
Qed.

(** [astype(int)] raises on NaN and on the two infinities, and on nothing
    else; what it raises is [IntCastingNaNError]. *)
Lemma astype_int_raised (x : float) :
  raised (astype_int x) = is_nan x || is_infinity x.
Proof.
  unfold astype_int, Prim2SF.
  destruct (is_nan x) eqn:En; [reflexivity |].
  destruct (PrimFloat.is_zero x) eqn:Ez; [now rewrite (zero_not_infinite x Ez) |].
  destruct (is_infinity x) eqn:Ei; [reflexivity |].
  destruct (Z.frexp x) as [r ex].
  destruct (SpecFloat.shr_fexp _ _ _ _ _) as [shr e'].
  destruct (SpecFloat.shr_m shr); reflexivity.
Qed.

Lemma astype_int_error (x : float) (e : exn) :
  astype_int x = Raise e -> e = IntCastingNaNError.
Proof.
  unfold astype_int. destruct (Prim2SF x) as [s | s | | s m ex]; intros H;
    inversion H; reflexivity.
Qed.

Lemma astype_CustomerID_raised (l : list Row) :
  raised (astype_CustomerID l) = existsb (fun r => raised (astype_int (CustomerID r))) l /\
  (forall e, astype_CustomerID l = Raise e -> e = IntCastingNaNError).
Proof.
  unfold astype_CustomerID. induction l as [| r l [IHr IHe]]; simpl.
  - split; [reflexivity | discriminate].
  - destruct (astype_int (CustomerID r)) as [i | x] eqn:Ei; simpl.
    + destruct (mapM _ l) as [bs | x] eqn:Em; simpl in *.
      * split; [exact IHr | discriminate].
      * split; [exact IHr |]. intros e H. inversion H; subst. now apply IHe.
    + split; [reflexivity |]. intros e H. inversion H; subst.
      exact (astype_int_error _ _ Ei).
Qed.

Lemma existsb_filter {A : Type} (f g : A -> bool) (l : list A) :
  existsb f (filter g l) = existsb (fun x => g x && f x) l.
Proof.
  induction l as [| a l IH]; simpl; [reflexivity |].
  destruct (g a); simpl; now rewrite IH.
Qed.

(** On a table that has the four columns the cleaning names, the cleaning
    fails exactly when the identifier of some line is infinite, and then
    with [IntCastingNaNError]; a line without identifier never makes it
    fail. *)
Theorem clean_fails_on_infinite_id (df : DataFrame) :
  (forall c, In c cleaning_columns -> has_column df c = true) ->
  raised (clean df) = existsb (fun r => is_infinity (CustomerID r)) (rows df) /\
  (forall e, clean df = Raise e -> e = IntCastingNaNError).
Proof.
  intros Hcols. rewrite AutomateFacts.clean_by_columns.
  rewrite (Hcols "CustomerID"%string), (Hcols "Quantity"%string),
          (Hcols "UnitPrice"%string), (Hcols "Discount"%string)
    by (unfold cleaning_columns; simpl; tauto).
  simpl negb. cbv iota.
  destruct (astype_CustomerID_raised
              (filter (fun r => negb (is_nan (CustomerID r))) (rows df))) as [Hr He].
  rewrite existsb_filter in Hr.
  assert (Hx : existsb (fun x => negb (is_nan (CustomerID x))
                                 && raised (astype_int (CustomerID x))) (rows df)
               = existsb (fun r => is_infinity (CustomerID r)) (rows df)).
  { clear. induction (rows df) as [| r l IH]; simpl; [reflexivity |].
    rewrite IH, astype_int_raised.
    destruct (is_nan (CustomerID r)) eqn:En; simpl; [| reflexivity].
    now rewrite (nan_not_infinite _ En). }
  rewrite Hx in Hr.
  destruct (astype_CustomerID _) as [typed | x]; simpl in *.
  - split; [exact Hr | discriminate].
  - split; [exact Hr |]. intros e H. inversion H; subst. now apply He.
Qed.

Definition one_infinite_id : DataFrame :=
  mkDataFrame required_columns
    [ sale 7 "A1" "2024-01-01" 2 10 0; sale infinity "A2" "2024-01-01" 2 10 0 ].

Definition one_missing_id : DataFrame :=
  mkDataFrame required_columns
    [ sale 7 "A1" "2024-01-01" 2 10 0; sale nan "A2" "2024-01-01" 2 10 0 ].

(** A table whose second line has an infinite identifier, and the same
    table with a missing identifier in its place. *)
Lemma clean_fails_on_infinite_id_witness :
  clean one_infinite_id = Raise IntCastingNaNError /\
  raised (clean one_missing_id) = false.
Proof.
  assert (Hc : forall df, columns df = required_columns ->
                 forall c, In c cleaning_columns -> has_column df c = true).
  { intros df Hdf c Hin. unfold has_column. rewrite Hdf.
    unfold cleaning_columns in Hin. simpl in Hin.
    destruct Hin as [<- | [<- | [<- | [<- | []]]]]; reflexivity. }
  split.
  - destruct (clean_fails_on_infinite_id one_infinite_id (Hc one_infinite_id eq_refl))
      as [Hr He].
    destruct (clean one_infinite_id) as [l | e]; [vm_compute in Hr; discriminate |].
    now rewrite (He e eq_refl).
  - destruct (clean_fails_on_infinite_id one_missing_id (Hc one_missing_id eq_refl))
      as [Hr _].
    rewrite Hr. vm_compute. reflexivity.
Defined.

End CleaningFacts.

(** * What [groupby] computes *)

Module GroupingFacts.

Import Automate AutomateInstances CleaningTerms.
Local Open Scope Z_scope.

(** The invariant of the loop of [groupby]: the keys ascend, the lines
    filed under a key are the lines of that customer so far, in order, and
    no group is empty. *)
Definition grouped (t : list CleanRow) (gs : list (Z * list CleanRow)) : Prop :=
  StronglySorted Z.lt (map fst gs) /\
  (forall k, group_of k gs = customer_lines k t) /\
  Forall (fun kg => snd kg <> []) gs.

Lemma insert_group_keys (k : Z) (r : CleanRow) (gs : list (Z * list CleanRow)) (k' : Z) :
  In k' (map fst (insert_group k r gs)) <-> k' = k \/ In k' (map fst gs).
Proof.
  induction gs as [| [k1 g] gs IH]; simpl.
  - intuition.
  - destruct (k <? k1) eqn:E1; simpl; [intuition |].
    destruct (k =? k1) eqn:E2; simpl.
    + apply Z.eqb_eq in E2. subst k1. intuition.
    + rewrite IH. intuition.
Qed.

Lemma insert_group_sorted (k : Z) (r : CleanRow) (gs : list (Z * list CleanRow)) :
  StronglySorted Z.lt (map fst gs) ->
  StronglySorted Z.lt (map fst (insert_group k r gs)).
Proof.
  induction gs as [| [k1 g] gs IH]; simpl; intros Hs.
  - repeat constructor.
  - apply StronglySorted_inv in Hs. destruct Hs as [Hs Hall].
    destruct (k <? k1) eqn:E1; simpl.
    + apply Z.ltb_lt in E1. constructor.
      * constructor; assumption.
      * constructor; [exact E1 |].
        rewrite Forall_forall in *. intros x Hx. specialize (Hall x Hx). lia.
    + destruct (k =? k1) eqn:E2; simpl.
      * constructor; assumption.
      * apply Z.ltb_ge in E1. apply Z.eqb_neq in E2.
        constructor; [apply IH; exact Hs |].
        rewrite Forall_forall in *. intros x Hx.
        apply insert_group_keys in Hx. destruct Hx as [-> | Hx]; [lia | now apply Hall].
Qed.

Lemma group_of_no_key (k : Z) (gs : list (Z * list CleanRow)) :
  ~ In k (map fst gs) -> group_of k gs = [].
Proof.
  induction gs as [| [k1 g] gs IH]; simpl; intros Hn; [reflexivity |].
  destruct (k =? k1) eqn:E.
  - apply Z.eqb_eq in E. subst k1. tauto.
  - apply IH. tauto.
Qed.

Lemma group_of_insert (k : Z) (r : CleanRow) (gs : list (Z * list CleanRow)) (k' : Z) :
  StronglySorted Z.lt (map fst gs) ->
  group_of k' (insert_group k r gs)
  = group_of k' gs ++ (if k' =? k then [r] else []).
Proof.
  induction gs as [| [k1 g] gs IH]; simpl; intros Hs.
  - destruct (k' =? k); reflexivity.
  - apply StronglySorted_inv in Hs. destruct Hs as [Hs Hall].
    destruct (k <? k1) eqn:E1; simpl.
    + apply Z.ltb_lt in E1. destruct (k' =? k) eqn:Ek.
      * apply Z.eqb_eq in Ek. subst k'.
        assert (Hk : (k =? k1) = false) by (apply Z.eqb_neq; lia). rewrite Hk.
        rewrite group_of_no_key; [reflexivity |].
        intros Hin. rewrite Forall_forall in Hall. specialize (Hall k Hin). lia.
      * now rewrite app_nil_r.
    + destruct (k =? k1) eqn:E2; simpl.
      * apply Z.eqb_eq in E2. subst k1.
        destruct (k' =? k); [reflexivity | now rewrite app_nil_r].
      * destruct (k' =? k1) eqn:E3; [| now apply IH].
        apply Z.eqb_eq in E3. subst k1.
        rewrite Z.eqb_sym, E2. now rewrite app_nil_r.
Qed.

Lemma insert_group_nonempty (k : Z) (r : CleanRow) (gs : list (Z * list CleanRow)) :
  Forall (fun kg => snd kg <> []) gs ->
  Forall (fun kg => snd kg <> []) (insert_group k r gs).
Proof.
  induction gs as [| [k1 g] gs IH]; simpl; intros H.
  - constructor; [discriminate | constructor].
  - inversion H as [| ? ? Hg Hgs]; subst.
    destruct (k <? k1); [constructor; [discriminate | assumption] |].
    destruct (k =? k1).
    + constructor; [| assumption]. simpl. intros Habs.
      apply app_eq_nil in Habs. destruct Habs as [_ Habs]. discriminate.
    + constructor; [assumption | now apply IH].
Qed.

Lemma grouped_step (t : list CleanRow) (gs : list (Z * list CleanRow)) (r : CleanRow) :
  grouped t gs -> grouped (t ++ [r]) (insert_group (c_CustomerID r) r gs).
Proof.
  intros (Hs & Hg & Hn). split; [| split].
  - now apply insert_group_sorted.
  - intros k. rewrite (group_of_insert _ _ _ _ Hs), Hg.
    unfold customer_lines. rewrite filter_app. simpl.
    rewrite (Z.eqb_sym k). reflexivity.
  - now apply insert_group_nonempty.
Qed.

Lemma groupby_grouped (t : list CleanRow) : grouped t (groupby t).
Proof.
  unfold groupby.
  assert (H : forall t t0 gs, grouped t0 gs ->
                grouped (t0 ++ t)
                  (fold_left (fun gs r => insert_group (c_CustomerID r) r gs) t gs)).
  { clear t. induction t as [| r t IH]; intros t0 gs Hg; simpl.
    - now rewrite app_nil_r.
    - replace (t0 ++ r :: t) with ((t0 ++ [r]) ++ t) by (now rewrite <- app_assoc).
      apply IH. now apply grouped_step. }
  apply (H t [] []). split; [constructor | split; [reflexivity | constructor]].
Qed.

Lemma group_of_key (k : Z) (g : list CleanRow) (gs : list (Z * list CleanRow)) :
  StronglySorted Z.lt (map fst gs) -> In (k, g) gs -> group_of k gs = g.
Proof.
  induction gs as [| [k1 g1] gs IH]; simpl; intros Hs Hin; [contradiction |].
  apply StronglySorted_inv in Hs. destruct Hs as [Hs Hall].
  destruct Hin as [Heq | Hin].
  - inversion Heq; subst. now rewrite Z.eqb_refl.
  - destruct (k =? k1) eqn:E; [| now apply IH].
    apply Z.eqb_eq in E. subst k1. exfalso.
    rewrite Forall_forall in Hall.
    specialize (Hall k (in_map fst _ _ Hin)). simpl in Hall. lia.
Qed.

(** Every group that [groupby] returns is the list of the lines of its
    customer, and is not empty. *)
Lemma groupby_In (t : list CleanRow) (k : Z) (g : list CleanRow) :
  In (k, g) (groupby t) -> g = customer_lines k t /\ g <> [].
Proof.
  intros Hin. destruct (groupby_grouped t) as (Hs & Hg & Hn). split.
  - rewrite <- Hg. symmetry. now apply group_of_key.
  - rewrite Forall_forall in Hn. exact (Hn _ Hin).
Qed.

Lemma groupby_keys (t : list CleanRow) (k : Z) :
  In k (map fst (groupby t)) <-> exists r, In r t /\ c_CustomerID r = k.
Proof.
  destruct (groupby_grouped t) as (Hs & Hg & Hn). split.
  - intros Hin. apply in_map_iff in Hin. destruct Hin as ([k' g] & Hk & Hin).
    simpl in Hk. subst k'. destruct (groupby_In t k g Hin) as [-> Hne].
    unfold customer_lines in Hne.
    destruct (filter _ t) as [| r l] eqn:Ef; [contradiction |].
    assert (Hr : In r (filter (fun r => c_CustomerID r =? k) t))
      by (rewrite Ef; now left).
    apply filter_In in Hr. destruct Hr as [Hr Hk]. apply Z.eqb_eq in Hk. eauto.
  - intros (r & Hr & Hk).
    destruct (in_dec Z.eq_dec k (map fst (groupby t))) as [Hin | Hn']; [exact Hin |].
    exfalso. apply group_of_no_key in Hn'. rewrite Hg in Hn'.
    assert (Hr' : In r (customer_lines k t))
      by (apply filter_In; split; [exact Hr | now apply Z.eqb_eq]).
    rewrite Hn' in Hr'. contradiction.
Qed.

(** ** The RFM table, customer by customer *)

Lemma groupby_nil (t : list CleanRow) : groupby t = [] -> t = [].
Proof.
  intros H. destruct t as [| r t]; [reflexivity |].
  assert (Hin : In (c_CustomerID r) (map fst (groupby (r :: t)))).
  { apply groupby_keys. exists r. split; [now left | reflexivity]. }
  rewrite H in Hin. contradiction.
Qed.

Lemma rfm_table_Ok (df : DataFrame) (t : list CleanRow) (rfm : list RfmRow) :
  rfm_table df t = Ok rfm ->
  rfm = map (agg (snapshot_date t)) (groupby t).
Proof.
  unfold rfm_table, getitem. destruct (has_column df "InvoiceNo"); simpl; intros H;
    inversion H. reflexivity.
Qed.

Lemma rfm_keys (t : list CleanRow) (snapshot : Datetime) :
  map rfm_CustomerID (map (agg snapshot) (groupby t)) = map fst (groupby t).
Proof. rewrite map_map. reflexivity. Qed.

(** The RFM table has one line per customer of the cleaned table: its
    identifiers ascend strictly, so none occurs twice, and they are the
    identifiers that occur in the cleaned table. *)
Theorem rfm_one_line_per_customer (df : DataFrame) (df_clean : list CleanRow)
    (rfm : list RfmRow) :
  rfm_table df df_clean = Ok rfm ->
  StronglySorted Z.lt (map rfm_CustomerID rfm) /\
  (forall id, In id (map rfm_CustomerID rfm) <->
              exists r, In r df_clean /\ c_CustomerID r = id).
Proof.
  intros H. rewrite (rfm_table_Ok _ _ _ H), rfm_keys. split.
  - exact (proj1 (groupby_grouped df_clean)).
  - intros id. apply groupby_keys.
Qed.

(** The cleaned lines of [discounts] after the conversion of the dates. *)
Definition discounts_lines : list CleanRow :=
  match cleaner two_dates discounts with
  | Ok l => l
  | Raise _ => []
  end.

Definition discounts_rfm : list RfmRow :=
  [ mkRfmRow 7 (Some 5) 2 20; mkRfmRow 8 (Some 1) 1 30; mkRfmRow 9 (Some 1) 1 0 ].

Lemma discounts_rfm_table : rfm_table discounts discounts_lines = Ok discounts_rfm.
Proof. vm_compute. reflexivity. Qed.

(** The customers 7, 8 and 9 of [discounts]. *)
Lemma rfm_one_line_per_customer_witness :
  StronglySorted Z.lt [7; 8; 9].
Proof.
  exact (proj1 (rfm_one_line_per_customer discounts discounts_lines discounts_rfm
                  discounts_rfm_table)).
Defined.

Lemma rfm_row_group (df : DataFrame) (df_clean : list CleanRow)
    (rfm : list RfmRow) (row : RfmRow) :
  rfm_table df df_clean = Ok rfm -> In row rfm ->
  customer_lines (rfm_CustomerID row) df_clean <> [] /\
  row = agg (snapshot_date df_clean)
          (rfm_CustomerID row, customer_lines (rfm_CustomerID row) df_clean).
Proof.
  intros H Hin. rewrite (rfm_table_Ok _ _ _ H) in Hin.
  apply in_map_iff in Hin. destruct Hin as ([k g] & <- & Hin).
  destruct (groupby_In _ _ _ Hin) as [-> Hne]. simpl. split; [exact Hne | reflexivity].
Qed.

(** Each line of the RFM table aggregates the cleaned lines of its
    customer, of which there is at least one: the recency is the number of
    days from that customer's latest date to the snapshot, the frequency
    counts the invoice numbers present, the monetary value sums the net
    prices present. *)
Theorem rfm_line_of_customer (df : DataFrame) (df_clean : list CleanRow)
    (rfm : list RfmRow) (row : RfmRow) :
  rfm_table df df_clean = Ok rfm -> In row rfm ->
  customer_lines (rfm_CustomerID row) df_clean <> [] /\
  Recency row =
    days (sub_datetime (snapshot_date df_clean)
            (series_max (map date_of (customer_lines (rfm_CustomerID row) df_clean)))) /\
  Frequency row =
    count (map (fun r => InvoiceNo (c_line r)) (customer_lines (rfm_CustomerID row) df_clean)) /\
  Monetary row = nansum (map TotalPrice (customer_lines (rfm_CustomerID row) df_clean)).
Proof.
  intros H Hin. destruct (rfm_row_group df df_clean rfm row H Hin) as [Hne Hrow].
  split; [exact Hne |].
  remember (rfm_CustomerID row) as k eqn:Hk. clear Hk.
  rewrite Hrow. simpl. repeat split.
Qed.

(** Customer 7 of [discounts]: two lines, of net prices 20 and 0. *)
Lemma rfm_line_of_customer_witness :
  Frequency (mkRfmRow 7 (Some 5) 2 20) = 2 /\
  nansum (map TotalPrice (customer_lines 7 discounts_lines)) = 20%float.
Proof.
  destruct (rfm_line_of_customer discounts discounts_lines discounts_rfm
              (mkRfmRow 7 (Some 5) 2 20) discounts_rfm_table (or_introl eq_refl))
    as (_ & _ & Hf & Hm).
  split; [reflexivity | symmetry; exact Hm].
Defined.

(** ** Recency *)

Lemma fold_max_datetime (l : list Datetime) (a : Datetime) :
  match fold_left max_datetime l a with
  | NaT => a = NaT /\ Forall (eq NaT) l
  | Timestamp m =>
      (a = Timestamp m \/ In (Timestamp m) l) /\
      (forall x, a = Timestamp x \/ In (Timestamp x) l -> x <= m)
  end.
Proof.
  revert a. induction l as [| d l IH]; intros a; simpl.
  - destruct a as [| x]; [split; [reflexivity | constructor] |].
    split; [now left |]. intros y [Hy | []]. inversion Hy. lia.
  - specialize (IH (max_datetime a d)).
    destruct (fold_left max_datetime l (max_datetime a d)) as [| m].
    + destruct IH as [Ha Hl]. destruct a as [| x], d as [| y]; simpl in Ha;
        try discriminate. split; [reflexivity | constructor; auto].
    + destruct IH as [Hm Hle]. split.
      * destruct Hm as [Hm | Hm]; [| now right; right].
        destruct a as [| x], d as [| y]; simpl in Hm; try discriminate.
        -- right; left. now symmetry.
        -- now left.
        -- inversion Hm; subst.
           destruct (Z.max_spec x y) as [[_ ->] | [_ ->]]; [right; left | left]; reflexivity.
      * intros z [Hz | [Hz | Hz]].
        -- subst a. destruct d as [| y]; simpl in Hle.
           ++ apply Hle. now left.
           ++ specialize (Hle (Z.max z y) (or_introl eq_refl)). lia.
        -- subst d. destruct a as [| x]; simpl in Hle.
           ++ apply Hle. now left.
           ++ specialize (Hle (Z.max x z) (or_introl eq_refl)). lia.
        -- apply Hle. now right.
Qed.

Lemma series_max_NaT (l : list Datetime) :
  series_max l = NaT <-> forall d, In d l -> d = NaT.
Proof.
  unfold series_max. pose proof (fold_max_datetime l NaT) as H. split.
  - intros E. rewrite E in H. destruct H as [_ H]. rewrite Forall_forall in H.
    intros d Hd. symmetry. now apply H.
  - intros Hall. destruct (fold_left max_datetime l NaT) as [| m]; [reflexivity |].
    destruct H as [[H | H] _]; [discriminate |]. specialize (Hall _ H). discriminate.
Qed.

Lemma series_max_Timestamp (l : list Datetime) (m : Z) :
  series_max l = Timestamp m ->
  In (Timestamp m) l /\ (forall x, In (Timestamp x) l -> x <= m).
Proof.
  unfold series_max. pose proof (fold_max_datetime l NaT) as H. intros E.
  rewrite E in H. destruct H as [[H | H] Hle]; [discriminate |].
  split; [exact H |]. intros x Hx. apply Hle. now right.
Qed.

Lemma customer_lines_incl (k : Z) (t : list CleanRow) (r : CleanRow) :
  In r (customer_lines k t) <-> In r t /\ c_CustomerID r = k.
Proof.
  unfold customer_lines. rewrite filter_In, Z.eqb_eq. reflexivity.
Qed.

(** The recency of a customer is missing exactly when none of the
    customer's cleaned lines has a date; otherwise it is at least one day,
    because the snapshot is one day after the latest date of the whole
    cleaned table. *)
Theorem recency_at_least_one_day (df : DataFrame) (df_clean : list CleanRow)
    (rfm : list RfmRow) (row : RfmRow) :
  rfm_table df df_clean = Ok rfm -> In row rfm ->
  (Recency row = None <->
     forall r, In r df_clean -> c_CustomerID r = rfm_CustomerID row -> date_of r = NaT) /\
  (forall d, Recency row = Some d -> 1 <= d).
Proof.
  intros H Hin.
  assert (Hrec : Recency row =
            days (sub_datetime (snapshot_date df_clean)
                    (series_max (map date_of
                       (customer_lines (rfm_CustomerID row) df_clean))))).
  { destruct (rfm_row_group df df_clean rfm row H Hin) as [_ Hrow].
    remember (rfm_CustomerID row) as k eqn:Hk. clear Hk.
    rewrite Hrow. reflexivity. }
  set (mine := customer_lines (rfm_CustomerID row) df_clean) in *.
  assert (Hnone : series_max (map date_of mine) = NaT <->
                  forall r, In r df_clean -> c_CustomerID r = rfm_CustomerID row ->
                            date_of r = NaT).
  { rewrite series_max_NaT. split.
    - intros Hall r Hr Hk. apply Hall. apply in_map.
      apply customer_lines_incl. now split.
    - intros Hall d Hd. apply in_map_iff in Hd. destruct Hd as (r & <- & Hr).
      apply customer_lines_incl in Hr. destruct Hr as [Hr Hk]. now apply Hall. }
  destruct (series_max (map date_of mine)) as [| mg] eqn:Eg.
  - assert (Hr : Recency row = None).
    { rewrite Hrec. destruct (snapshot_date df_clean); reflexivity. }
    split; [split; [intros _; now apply Hnone | intros _; exact Hr] |].
    intros d Hd. rewrite Hr in Hd. discriminate.
  - destruct (series_max_Timestamp _ _ Eg) as [Hmg _].
    assert (Hall : In (Timestamp mg) (map date_of df_clean)).
    { apply in_map_iff in Hmg. destruct Hmg as (r & Hd & Hr).
      apply customer_lines_incl in Hr. apply in_map_iff. exists r. tauto. }
    unfold snapshot_date in Hrec.
    destruct (series_max (map date_of df_clean)) as [| M] eqn:EM.
    + rewrite series_max_NaT in EM. specialize (EM _ Hall). discriminate.
    + destruct (series_max_Timestamp _ _ EM) as [_ Hle]. specialize (Hle mg Hall).
      simpl in Hrec. split.
      * split; [intros Hn; rewrite Hn in Hrec; discriminate |].
        intros Habs. apply Hnone in Habs. discriminate.
      * intros d Hd. rewrite Hrec in Hd. inversion Hd; subst d.
        apply Z.div_le_lower_bound; unfold ns_per_day; lia.
Qed.

(** Customer 7 of [discounts], last seen five days before the snapshot. *)
Lemma recency_at_least_one_day_witness : 1 <= 5.
Proof.
  exact (proj2 (recency_at_least_one_day discounts discounts_lines discounts_rfm
                  (mkRfmRow 7 (Some 5) 2 20) discounts_rfm_table (or_introl eq_refl))
               5 eq_refl).
Defined.

(** When some cleaned line has a date, the customer of the latest line has
    the recency 1: the smallest recency of the table is always one day. *)
Theorem latest_customer_has_recency_one (df : DataFrame) (df_clean : list CleanRow)
    (rfm : list RfmRow) :
  rfm_table df df_clean = Ok rfm ->
  (exists r, In r df_clean /\ date_of r <> NaT) ->
  exists row, In row rfm /\ Recency row = Some 1.
Proof.
  intros H (r1 & Hr1 & Hd1).
  destruct (series_max (map date_of df_clean)) as [| M] eqn:EM.
  { rewrite series_max_NaT in EM. exfalso. apply Hd1. apply EM. now apply in_map. }
  destruct (series_max_Timestamp _ _ EM) as [HM Hle].
  apply in_map_iff in HM. destruct HM as (r0 & Hd0 & Hr0).
  assert (Hkey : In (c_CustomerID r0) (map fst (groupby df_clean)))
    by (apply groupby_keys; eauto).
  apply in_map_iff in Hkey. destruct Hkey as ([k g] & Hk & Hin). simpl in Hk. subst k.
  destruct (groupby_In _ _ _ Hin) as [-> _].
  exists (agg (snapshot_date df_clean)
              (c_CustomerID r0, customer_lines (c_CustomerID r0) df_clean)).
  split.
  - rewrite (rfm_table_Ok _ _ _ H). now apply in_map.
  - unfold agg. cbn [Recency snd]. unfold snapshot_date. rewrite EM.
    assert (Hmine : In (Timestamp M)
                      (map date_of (customer_lines (c_CustomerID r0) df_clean))).
    { rewrite <- Hd0. apply in_map. apply customer_lines_incl. now split. }
    destruct (series_max (map date_of (customer_lines (c_CustomerID r0) df_clean)))
      as [| mg] eqn:Eg.
    + rewrite series_max_NaT in Eg. specialize (Eg _ Hmine). discriminate.
    + destruct (series_max_Timestamp _ _ Eg) as [Hmg Hleg].
      assert (mg <= M).
      { apply Hle. apply in_map_iff in Hmg. destruct Hmg as (r & Hd & Hr).
        apply customer_lines_incl in Hr. apply in_map_iff. exists r. tauto. }
      assert (M <= mg) by (now apply Hleg).
      replace mg with M by lia. unfold add_days, sub_datetime, days.
      replace (M + 1 * ns_per_day - M) with ns_per_day by lia. reflexivity.
Qed.

(** In [discounts] the customers 8 and 9 bought last. *)
Lemma latest_customer_has_recency_one_witness :
  exists row, In row discounts_rfm /\ Recency row = Some 1.
Proof.
  apply (latest_customer_has_recency_one discounts discounts_lines discounts_rfm
           discounts_rfm_table).
  eexists. split.
  - vm_compute. right; right; left. reflexivity.
  - vm_compute. discriminate.
Defined.

(** ** Nothing is lost in the grouping *)

Lemma insert_group_Permutation (k : Z) (r : CleanRow) (gs : list (Z * list CleanRow)) :
  Permutation (List.concat (map snd (insert_group k r gs))) (r :: List.concat (map snd gs)).
Proof.
  induction gs as [| [k1 g] gs IH]; simpl; [reflexivity |].
  destruct (k <? k1); simpl; [reflexivity |].
  destruct (k =? k1); simpl.
  - rewrite <- app_assoc. simpl. symmetry. apply Permutation_middle.
  - rewrite IH. symmetry. apply Permutation_middle.
Qed.

Lemma groupby_Permutation (t : list CleanRow) :
  Permutation (List.concat (map snd (groupby t))) t.
Proof.
  unfold groupby.
  assert (H : forall t gs,
            Permutation
              (List.concat (map snd
                 (fold_left (fun gs r => insert_group (c_CustomerID r) r gs) t gs)))
              (List.concat (map snd gs) ++ t)).
  { clear t. induction t as [| r t IH]; intros gs; simpl.
    - now rewrite app_nil_r.
    - rewrite IH, insert_group_Permutation. simpl. apply Permutation_middle. }
  exact (H t []).
Qed.

Lemma Permutation_filter_length {A : Type} (f : A -> bool) (l l' : list A) :
  Permutation l l' -> List.length (filter f l) = List.length (filter f l').
Proof.
  induction 1 as [| a l l' _ IH | a b l | l l' l'' _ IH1 _ IH2]; simpl.
  - reflexivity.
  - destruct (f a); simpl; now rewrite IH.
  - destruct (f a), (f b); reflexivity.
  - now rewrite IH1.
Qed.

Lemma count_app (l l' : list (option string)) : count (l ++ l') = count l + count l'.
Proof. unfold count. rewrite filter_app, length_app. lia. Qed.

Lemma sum_of_counts (gs : list (Z * list CleanRow)) (snapshot : Datetime) :
  sum_Z (map Frequency (map (agg snapshot) gs))
  = count (map (fun r => InvoiceNo (c_line r)) (List.concat (map snd gs))).
Proof.
  induction gs as [| [k g] gs IH]; simpl; [reflexivity |].
  rewrite map_app, count_app, <- IH. reflexivity.
Qed.

(** The groups hold every cleaned line once, so the frequencies of the RFM
    table add up to the number of cleaned lines that have an invoice
    number; a line without one is counted for nobody. *)
Theorem frequencies_add_up (df : DataFrame) (df_clean : list CleanRow)
    (rfm : list RfmRow) :
  rfm_table df df_clean = Ok rfm ->
  Permutation (List.concat (map snd (groupby df_clean))) df_clean /\
  sum_Z (map Frequency rfm) = count (map (fun r => InvoiceNo (c_line r)) df_clean).
Proof.
  intros H. split; [apply groupby_Permutation |].
  rewrite (rfm_table_Ok _ _ _ H), sum_of_counts. unfold count. f_equal.
  rewrite !filter_map_swap, !length_map.
  apply Permutation_filter_length, groupby_Permutation.
Qed.

(** The four cleaned lines of [discounts], all with an invoice number. *)
Lemma frequencies_add_up_witness : sum_Z [2; 1; 1] = 4.
Proof.
  exact (proj2 (frequencies_add_up discounts discounts_lines discounts_rfm
                  discounts_rfm_table)).
Defined.

End GroupingFacts.

(** * Missing discounts in the monetary value *)

Module MonetaryFacts.

Import Automate AutomateInstances CleaningTerms.
Local Open Scope Z_scope.

Lemma Prim2SF_is_nan (x : float) : Prim2SF x = SpecFloat.S754_nan -> is_nan x = true.
Proof.
  unfold Prim2SF. destruct (is_nan x); [reflexivity |].
  destruct (PrimFloat.is_zero x); [discriminate |].
  destruct (is_infinity x); [discriminate |].
  destruct (Z.frexp x) as [r ex].
  destruct (SpecFloat.shr_fexp _ _ _ _ _) as [shr e'].
  destruct (SpecFloat.shr_m shr); discriminate.
Qed.

Lemma sub_nan_r (x d : float) : is_nan d = true -> is_nan (x - d)%float = true.
Proof.
  intros H. apply Prim2SF_is_nan.
  rewrite FloatAxioms.sub_spec, (F64.Prim2SF_nan d H).
  unfold FloatAxioms.SF64sub, SpecFloat.SFsub. destruct (Prim2SF x); reflexivity.
Qed.

Lemma mul_nan_r (x d : float) : is_nan d = true -> is_nan (x * d)%float = true.
Proof.
  intros H. apply Prim2SF_is_nan.
  rewrite FloatAxioms.mul_spec, (F64.Prim2SF_nan d H).
  unfold FloatAxioms.SF64mul, SpecFloat.SFmul. destruct (Prim2SF x); reflexivity.
Qed.

(** The net price of a line whose discount is missing is missing. *)
Lemma derive_missing (p : Z * Row) :
  is_nan (Discount (snd p)) = true -> is_nan (TotalPrice (derive p)) = true.
Proof.
  intros H. unfold derive. simpl. apply mul_nan_r, sub_nan_r.
  now rewrite (AutomateFacts.clip_missing _ H).
Qed.

Lemma kahan_step_missing (st : float * float) (x : float) :
  is_nan x = true -> kahan_step st x = st.
Proof. intros H. unfold kahan_step. destruct st as [sumx c]. now rewrite H. Qed.

Lemma nansum_skips (f : CleanRow -> bool) (l : list CleanRow) (acc : float * float) :
  (forall r, In r l -> f r = false -> is_nan (TotalPrice r) = true) ->
  fold_left kahan_step (map TotalPrice l) acc
  = fold_left kahan_step (map TotalPrice (filter f l)) acc.
Proof.
  revert acc. induction l as [| r l IH]; intros acc H; simpl; [reflexivity |].
  destruct (f r) eqn:Ef; simpl.
  - apply IH. intros r' Hr'. apply H. now right.
  - rewrite (kahan_step_missing _ _ (H r (or_introl eq_refl) Ef)).
    apply IH. intros r' Hr'. apply H. now right.
Qed.

Lemma nansum_all_missing (l : list float) (acc : float * float) :
  (forall x, In x l -> is_nan x = true) ->
  fold_left kahan_step l acc = acc.
Proof.
  revert acc. induction l as [| x l IH]; intros acc H; simpl; [reflexivity |].
  rewrite (kahan_step_missing _ _ (H x (or_introl eq_refl))).
  apply IH. intros y Hy. apply H. now right.
Qed.

(** A cleaned line whose discount is missing adds nothing to the monetary
    value of its customer: the value is the sum over the customer's lines
    with a discount, and it is 0, not missing, for a customer all of whose
    lines lack a discount. *)
Theorem monetary_skips_missing_discounts (df : DataFrame) (df_clean : list CleanRow)
    (rfm : list RfmRow) (row : RfmRow) :
  clean df = Ok df_clean -> rfm_table df df_clean = Ok rfm -> In row rfm ->
  Monetary row =
    nansum (map TotalPrice
              (filter (fun r => negb (is_nan (Discount (c_line r))))
                      (customer_lines (rfm_CustomerID row) df_clean))) /\
  ((forall r, In r df_clean -> c_CustomerID r = rfm_CustomerID row ->
              is_nan (Discount (c_line r)) = true) ->
   Monetary row = 0%float).
Proof.
  intros Hc H Hin.
  destruct (GroupingFacts.rfm_row_group df df_clean rfm row H Hin) as [_ Hrow].
  remember (rfm_CustomerID row) as k eqn:Hk. clear Hk.
  assert (Hm : Monetary row = nansum (map TotalPrice (customer_lines k df_clean)))
    by (rewrite Hrow; reflexivity).
  assert (Hnan : forall r, In r (customer_lines k df_clean) ->
                   negb (is_nan (Discount (c_line r))) = false ->
                   is_nan (TotalPrice r) = true).
  { intros r Hr Hd. apply GroupingFacts.customer_lines_incl in Hr. destruct Hr as [Hr _].
    destruct (AutomateFacts.clean_In df df_clean r Hc Hr) as (p & -> & _).
    apply derive_missing. apply negb_false_iff in Hd. exact Hd. }
  split.
  - rewrite Hm. unfold nansum. f_equal. now apply nansum_skips.
  - intros Hall. rewrite Hm. unfold nansum. rewrite nansum_all_missing; [reflexivity |].
    intros x Hx. apply in_map_iff in Hx. destruct Hx as (r & <- & Hr).
    apply Hnan; [exact Hr |]. apply negb_false_iff.
    apply GroupingFacts.customer_lines_incl in Hr. destruct Hr as [Hr Hk]. now apply Hall.
Qed.

Lemma discounts_lines_clean :
  exists df', convert_InvoiceDate two_dates discounts = Ok df' /\
              clean df' = Ok GroupingFacts.discounts_lines /\
              rfm_table df' GroupingFacts.discounts_lines = Ok GroupingFacts.discounts_rfm.
Proof. eexists. repeat split; vm_compute; reflexivity. Qed.

(** Customer 9 of [discounts]: one line, without discount. *)
Lemma monetary_skips_missing_discounts_witness :
  Monetary (mkRfmRow 9 (Some 1) 1 0) = 0%float.
Proof.
  destruct discounts_lines_clean as (df' & _ & Hc & Hr).
  apply (monetary_skips_missing_discounts df' GroupingFacts.discounts_lines
           GroupingFacts.discounts_rfm (mkRfmRow 9 (Some 1) 1 0) Hc Hr).
  - simpl. auto.
  - intros r Hin Hk. vm_compute in Hin.
    destruct Hin as [<- | [<- | [<- | [<- | []]]]]; vm_compute in Hk; try discriminate.
    vm_compute. reflexivity.
Defined.

End MonetaryFacts.

(** * The whole of [preprocess_data] *)

Module PreprocessFacts.

Import Automate AutomateInstances CleaningTerms.
Local Open Scope Z_scope.

Lemma with_CustomerID_aligned (scaled : list Features) (ids : list Z) :
  List.length scaled = List.length ids ->
  map s_CustomerID (with_CustomerID scaled ids) = map Some ids /\
  map (fun r => (s_Recency r, s_Frequency r, s_Monetary r)) (with_CustomerID scaled ids)
  = scaled.
Proof.
  revert ids. induction scaled as [| [[r f] m] scaled IH]; intros [| i ids] Hlen;
    simpl in *; try discriminate; [split; reflexivity |].
  injection Hlen as Hlen. destruct (IH ids Hlen) as [H1 H2].
  split; [now rewrite H1 | now rewrite H2].
Qed.

Lemma clean_Raise (df : DataFrame) (e : exn) :
  clean df = Raise e ->
  (exists c, In c cleaning_columns /\ has_column df c = false /\ e = KeyError c) \/
  (e = IntCastingNaNError /\
   exists r, In r (rows df) /\ is_infinity (CustomerID r) = true).
Proof.
  rewrite AutomateFacts.clean_by_columns. unfold cleaning_columns.
  destruct (has_column df "CustomerID") eqn:E1; simpl negb; cbv iota.
  2:{ intros H; inversion H. left. exists "CustomerID"%string. simpl. tauto. }
  destruct (astype_CustomerID _) as [typed | x] eqn:Et.
  - destruct (has_column df "Quantity") eqn:E2; simpl negb; cbv iota.
    2:{ intros H; inversion H. left. exists "Quantity"%string. simpl. tauto. }
    destruct (has_column df "UnitPrice") eqn:E3; simpl negb; cbv iota.
    2:{ intros H; inversion H. left. exists "UnitPrice"%string. simpl. tauto. }
    destruct (has_column df "Discount") eqn:E4; simpl negb; cbv iota.
    2:{ intros H; inversion H. left. exists "Discount"%string. simpl. tauto. }
    discriminate.
  - intros H; inversion H; subst x. right.
    destruct (CleaningFacts.astype_CustomerID_raised
                (filter (fun r => negb (is_nan (CustomerID r))) (rows df))) as [Hr He].
    rewrite Et in Hr. simpl in Hr. split; [now apply He |].
    symmetry in Hr. apply existsb_exists in Hr. destruct Hr as (r & Hin & Hraise).
    apply filter_In in Hin. destruct Hin as [Hin Hn].
    rewrite CleaningFacts.astype_int_raised in Hraise.
    apply negb_true_iff in Hn. rewrite Hn in Hraise. simpl in Hraise. eauto.
Qed.

Section Whole.

Variable parse_datetime : string -> Datetime.
Variable log1p : float -> float.
Variable fit_transform : list Features -> result (list Features).

Local Abbreviation preprocess_data :=
  (Automate.preprocess_data parse_datetime log1p fit_transform).
Local Abbreviation cleaner := (Automate.cleaner parse_datetime).

Lemma converted_row (df df' : DataFrame) (r' : Row) :
  convert_InvoiceDate parse_datetime df = Ok df' -> In r' (rows df') ->
  exists r, In r (rows df) /\ CustomerID r' = CustomerID r /\
            InvoiceDate r' = Parsed (to_datetime parse_datetime (InvoiceDate r)).
Proof.
  intros H Hin. destruct (AutomateFacts.convert_columns _ _ _ H) as [_ Hr].
  rewrite Hr in Hin. apply in_map_iff in Hin. destruct Hin as (r & <- & Hin).
  exists r. repeat split; auto.
Qed.

Lemma read_order_cleaning (c : string) : In c cleaning_columns -> In c read_order.
Proof.
  unfold cleaning_columns, read_order. simpl. intuition.
Qed.

Lemma rfm_features_cases (rfm : list RfmRow) :
  (rfm = [] /\ rfm_features log1p rfm = Raise log1p_of_dates) \/
  (rfm <> [] /\
   rfm_features log1p rfm
   = Ok (map (fun r => (log1p (float_of_optZ (Recency r)),
                        log1p (float_of_Z (Frequency r)),
                        log1p (Monetary r))) rfm)).
Proof.
  destruct rfm as [| r rfm]; [left | right]; split; try reflexivity. discriminate.
Qed.

(** Every exception that leaves [preprocess_data] is one of four: a
    [KeyError] for one of the six columns, which the table then lacks; an
    [IntCastingNaNError], and then some identifier is infinite; the
    [TypeError] of [np.log1p] on a column of dates, and then the cleaning
    has left no line; or an exception that the scaler raised.  The
    function raises nothing of its own beyond these. *)
Theorem preprocess_data_errors (df : DataFrame) (e : exn) :
  snd (preprocess_data df) = Raise e ->
  (exists c, In c read_order /\ has_column df c = false /\ e = KeyError c) \/
  (e = IntCastingNaNError /\
   exists r, In r (rows df) /\ is_infinity (CustomerID r) = true) \/
  (e = log1p_of_dates /\ cleaner df = Ok []) \/
  (exists m, fit_transform m = Raise e).
Proof.
  unfold Automate.preprocess_data, Automate.cleaner.
  destruct (convert_InvoiceDate parse_datetime df) as [df' | x] eqn:Ec; simpl.
  2:{ intros H; inversion H; subst x. left. exists "InvoiceDate"%string.
      unfold convert_InvoiceDate, getitem in Ec.
      destruct (has_column df "InvoiceDate") eqn:E; simpl in Ec; inversion Ec.
      unfold read_order. simpl. tauto. }
  unfold after_conversion, rfm_stage.
  destruct (clean df') as [df_clean | x] eqn:Ecl; simpl.
  2:{ intros H; inversion H; subst x.
      destruct (clean_Raise df' e Ecl) as [(c & Hc & Hh & ->) | (-> & r' & Hr' & Hi)].
      - left. exists c. rewrite (AutomateFacts.convert_has_column _ _ _ _ Ec) in Hh.
        split; [now apply read_order_cleaning | tauto].
      - right; left. split; [reflexivity |].
        destruct (converted_row df df' r' Ec Hr') as (r & Hr & Hid & _).
        exists r. rewrite <- Hid. tauto. }
  destruct (rfm_table df' df_clean) as [rfm | x] eqn:Er; simpl.
  2:{ unfold rfm_table, getitem in Er.
      destruct (has_column df' "InvoiceNo") eqn:E; simpl in Er; [discriminate |].
      intros H; inversion H; subst x. inversion Er. left. exists "InvoiceNo"%string.
      rewrite (AutomateFacts.convert_has_column _ _ _ _ Ec) in E.
      unfold read_order. simpl. tauto. }
  unfold scale.
  destruct (rfm_features_cases rfm) as [[Hnil Hf] | [Hne Hf]]; rewrite Hf; simpl.
  - intros H; inversion H. right; right; left. split; [reflexivity |].
    f_equal. apply GroupingFacts.groupby_nil.
    pose proof (GroupingFacts.rfm_table_Ok _ _ _ Er) as Hrfm.
    rewrite Hnil in Hrfm. symmetry in Hrfm. now apply map_eq_nil in Hrfm.
  - destruct (fit_transform _) as [out | x] eqn:Ef; simpl; [discriminate |].
    intros H; inversion H; subst x. right; right; right. eauto.
Qed.

(** When the scaler returns as many lines as it is given, the table that
    [preprocess_data] returns has one line per customer that survived the
    cleaning: every line carries an identifier, the identifiers ascend
    strictly, and they are those of the cleaned lines. *)
Theorem output_one_line_per_customer (df : DataFrame) (table : list ScaledRow) :
  (forall m out, fit_transform m = Ok out -> List.length out = List.length m) ->
  snd (preprocess_data df) = Ok table ->
  exists (lines : list CleanRow) (ids : list Z),
    cleaner df = Ok lines /\
    map s_CustomerID table = map Some ids /\
    StronglySorted Z.lt ids /\
    (forall id, In id ids <-> exists r, In r lines /\ c_CustomerID r = id).
Proof.
  intros Hlen. unfold Automate.preprocess_data, Automate.cleaner.
  destruct (convert_InvoiceDate parse_datetime df) as [df' | x]; simpl; [| discriminate].
  unfold after_conversion, rfm_stage.
  destruct (clean df') as [df_clean | x]; simpl; [| discriminate].
  destruct (rfm_table df' df_clean) as [rfm | x] eqn:Er; simpl; [| discriminate].
  unfold scale.
  destruct (rfm_features_cases rfm) as [[Hnil Hf] | [Hne Hf]]; rewrite Hf; simpl;
    [discriminate |].
  destruct (fit_transform _) as [out | x] eqn:Ef; simpl; [| discriminate].
  intros H; inversion H; subst table.
  exists df_clean, (map rfm_CustomerID rfm).
  pose proof (GroupingFacts.rfm_table_Ok _ _ _ Er) as Hrfm.
  split; [reflexivity | split; [| split]].
  - apply with_CustomerID_aligned. rewrite (Hlen _ _ Ef).
    now rewrite !length_map.
  - rewrite Hrfm, GroupingFacts.rfm_keys.
    exact (proj1 (GroupingFacts.groupby_grouped df_clean)).
  - intros id. rewrite Hrfm, GroupingFacts.rfm_keys. apply GroupingFacts.groupby_keys.
Qed.

(** Calling [preprocess_data] again on the table that a first call has
    left returns what the first call returned and changes the table no
    more: the dates are parsed once. *)
Theorem second_call_changes_nothing (df : DataFrame) :
  preprocess_data (fst (preprocess_data df)) = preprocess_data df.
Proof.
  unfold Automate.preprocess_data.
  destruct (convert_InvoiceDate parse_datetime df) as [df' | x] eqn:Ec; simpl.
  2:{ rewrite Ec. reflexivity. }
  assert (Hagain : convert_InvoiceDate parse_datetime df' = Ok df').
  { destruct (AutomateFacts.convert_columns _ _ _ Ec) as [Hc Hr].
    unfold convert_InvoiceDate, getitem in *.
    unfold has_column in *. rewrite Hc.
    destruct (existsb (String.eqb "InvoiceDate") (columns df)); simpl in *; [| discriminate].
    f_equal. destruct df' as [cols' rows']. simpl in *. subst cols' rows'. f_equal.
    rewrite map_map. apply map_ext. intros r. reflexivity. }
  rewrite Hagain. reflexivity.
Qed.

End Whole.

(** The table [nothing_sold], on which line 64 raises. *)
Lemma preprocess_data_errors_witness :
  (exists c, In c read_order /\
             has_column nothing_sold c = false /\ log1p_of_dates = KeyError c) \/
  (log1p_of_dates = IntCastingNaNError /\
   exists r, In r (rows nothing_sold) /\ is_infinity (CustomerID r) = true) \/
  (log1p_of_dates = log1p_of_dates /\ cleaner two_dates nothing_sold = Ok []) \/
  (exists m, refuse_empty m = Raise log1p_of_dates).
Proof.
  apply (preprocess_data_errors two_dates (fun x => x) refuse_empty
           nothing_sold log1p_of_dates).
  vm_compute. reflexivity.
Defined.

Lemma refuse_empty_length (m out : list Features) :
  refuse_empty m = Ok out -> List.length out = List.length m.
Proof. destruct m; simpl; intros H; inversion H; reflexivity. Qed.

(** The table [discounts]: the customers 7, 8 and 9. *)
Lemma output_one_line_per_customer_witness :
  exists (lines : list CleanRow) (ids : list Z),
    cleaner two_dates discounts = Ok lines /\
    map s_CustomerID
      [ mkScaledRow 5 2 20 (Some 7); mkScaledRow 1 1 30 (Some 8);
        mkScaledRow 1 1 0 (Some 9) ] = map Some ids /\
    StronglySorted Z.lt ids /\
    (forall id, In id ids <-> exists r, In r lines /\ c_CustomerID r = id).
Proof.
  apply (output_one_line_per_customer two_dates (fun x => x) refuse_empty discounts
           _ refuse_empty_length).
  vm_compute. reflexivity.
Defined.

End PreprocessFacts.

(** * The scaled columns *)

Module ScalingFacts.

Import Automate AutomateInstances.
Local Open Scope Z_scope.

(** ** A missing value in binary64 arithmetic *)











(** ** Lines 71-72 leave the scaled columns as the scaler returned them *)




(** ** The scaler [centre] *)






(** ** C5: the columns of the returned table *)

Section Scaled.

Variable parse_datetime : string -> Datetime.
Variable log1p : float -> float.
Variable fit_transform : list Features -> result (list Features).

Local Abbreviation preprocess_data :=
  (Automate.preprocess_data parse_datetime log1p fit_transform).


End Scaled.



End ScalingFacts.

(** * More of the sweep: what a run logs, which files it leaves, and where
      its exceptions come from *)

Module SweepTerms.

Import ModellingTuning.
Local Open Scope Z_scope.

(** The calls of one completed trial, in order. *)
Definition trace (data : Frame) (k : Z) (fit : Model * float) : list Effect :=
  start_run (Child k) true :: reports data k (fst fit) (snd fit).

(** The files that the calls of a log wrote, uploaded and removed. *)
Definition written (log : list Effect) : list Path :=
  flat_map (fun e => match e with
                     | savefig _ _ _ _ _ f => [f]
                     | to_csv _ f => [f]
                     | _ => []
                     end) log.

Definition uploaded (log : list Effect) : list Path :=
  flat_map (fun e => match e with log_artifact f => [f] | _ => [] end) log.

Definition removed (log : list Effect) : list Path :=
  flat_map (fun e => match e with remove f => [f] | _ => [] end) log.

Definition files (k : Z) : list Path := [cluster_plot k; result_csv k].

Definition has_no_column (name : string) (data : Frame) : Prop :=
  forall c, In c data -> fst c <> name.

End SweepTerms.

Module SweepFacts2.

Import ModellingTuning TuningInstances SweepTerms.
Local Open Scope Z_scope.

Section Runs.

Variable RandomState : Type.
Variable KMeans_fit :
  Z -> string -> option Z -> RandomState -> Frame -> result Model.
Variable silhouette_score : Frame -> list Z -> result float.
Variable sink : Effect -> result unit.
Variable g : RandomState.

Local Abbreviation perform_all := (ModellingTuning.perform_all sink).
Local Abbreviation fit_and_score :=
  (ModellingTuning.fit_and_score RandomState KMeans_fit silhouette_score g).
Local Abbreviation trial :=
  (ModellingTuning.trial RandomState KMeans_fit silhouette_score sink g).
Local Abbreviation sweep :=
  (ModellingTuning.sweep RandomState KMeans_fit silhouette_score sink g).

(** [perform_all] either completes all its calls, or stops at the first
    call that the sink refuses, with the exception of the sink. *)
Lemma perform_all_run (es : list Effect) (st st' : State) (r : result unit) :
  perform_all es st = (st', r) ->
  inertia_list st' = inertia_list st /\
  ((r = Ok tt /\ sink_log st' = sink_log st ++ es) \/
   (exists e n eff,
      r = Raise e /\ nth_error es n = Some eff /\ sink eff = Raise e /\
      sink_log st' = sink_log st ++ firstn n es)).
Proof.
  revert st. induction es as [| x es IH]; intros st; simpl.
  - unfold ret. intros H; inversion H; subst. rewrite app_nil_r. auto.
  - unfold bindM at 1. unfold perform at 1. destruct (sink x) as [[] | e] eqn:Es.
    + intros H. destruct (IH _ H) as [Hi [[-> Hl] | (e & n & eff & -> & Hn & He & Hl)]];
        simpl in Hi, Hl; rewrite <- app_assoc in Hl; simpl in Hl.
      * split; [exact Hi | left; auto].
      * split; [exact Hi | right]. exists e, (S n), eff. simpl. auto.
    + intros H; inversion H; subst. split; [reflexivity | right].
      exists e, 0%nat, x. simpl. rewrite app_nil_r. auto.
Qed.

(** The four ways in which one pass through the body of the loop ends. *)
Lemma trial_cases (data X : Frame) (k : Z) (st st' : State) (r : result unit) :
  trial data X k st = (st', r) ->
  (r = Ok tt /\
   exists fit, fit_and_score X k = Ok fit /\
     sink_log st' = sink_log st ++ trace data k fit /\
     inertia_list st' = inertia_list st ++ [inertia_ (fst fit)]) \/
  (exists e, r = Raise e /\
     ((sink (start_run (Child k) true) = Raise e /\ st' = st) \/
      (fit_and_score X k = Raise e /\
       sink_log st' = sink_log st ++ [start_run (Child k) true] /\
       inertia_list st' = inertia_list st) \/
      (exists fit n eff,
         fit_and_score X k = Ok fit /\
         nth_error (reports data k (fst fit) (snd fit)) n = Some eff /\
         sink eff = Raise e /\
         sink_log st' = sink_log st ++ start_run (Child k) true
                          :: firstn n (reports data k (fst fit) (snd fit)) /\
         inertia_list st' = inertia_list st ++ [inertia_ (fst fit)]))).
Proof.
  unfold ModellingTuning.trial. unfold bindM at 1. unfold perform at 1.
  destruct (sink (start_run (Child k) true)) as [[] | x] eqn:Es; cbv beta iota.
  2:{ intros H; inversion H; subst. right. exists x. split; [reflexivity | left; auto]. }
  unfold bindM at 1. unfold lift at 1.
  destruct (fit_and_score X k) as [fit | x] eqn:Ef; cbv beta iota.
  2:{ intros H; inversion H; subst. right. exists x.
      split; [reflexivity | right; left; auto]. }
  unfold bindM at 1. unfold append_inertia at 1. cbv beta iota.
  cbn [sink_log inertia_list].
  intros H. destruct (perform_all_run _ _ _ _ H)
    as [Hi [[-> Hl] | (e & n & eff & -> & Hn & He & Hl)]];
    cbn [sink_log inertia_list] in Hi, Hl; rewrite <- app_assoc in Hl; simpl app in Hl.
  - left. split; [reflexivity |]. exists fit. unfold trace. auto.
  - right. exists e. split; [reflexivity | right; right].
    exists fit, n, eff. auto.
Qed.

(** ** A sweep that returns *)

Lemma for_each_returned (data X : Frame) (ks : list Z) (st st' : State) :
  for_each ks (trial data X) st = (st', Ok tt) ->
  exists fits : list (Model * float),
    Forall2 (fun k fit => fit_and_score X k = Ok fit) ks fits /\
    inertia_list st' = inertia_list st ++ map (fun fit => inertia_ (fst fit)) fits /\
    sink_log st' = sink_log st
                     ++ List.concat (map (fun kf => trace data (fst kf) (snd kf))
                                         (combine ks fits)).
Proof.
  revert st. induction ks as [| k ks IH]; intros st; simpl.
  - unfold ret. intros H; inversion H; subst. exists []. simpl.
    rewrite !app_nil_r. auto.
  - unfold bindM at 1. destruct (trial data X k st) as [st1 [[] | x]] eqn:Et;
      [| discriminate].
    intros H. destruct (trial_cases _ _ _ _ _ _ Et) as [(_ & fit & Hf & Hl & Hi) | (e & He & _)];
      [| discriminate].
    destruct (IH _ H) as (fits & Hfs & Hi2 & Hl2).
    exists (fit :: fits). simpl.
    split; [constructor; assumption |].
    rewrite Hi2, Hl2, Hi, Hl, <- !app_assoc. simpl. auto.
Qed.

(** When the sweep returns, the fit and the silhouette of each of k = 2,
    3, 4, 5, 6 succeeded; [inertia_list] has gained the five inertias in
    this order; and the log has gained, for each k in this order, the
    opening of the run of k followed by its eleven reports, built from the
    model and the silhouette of that k. *)
Theorem returned_sweep (data X : Frame) (st : State) :
  snd (sweep data X st) = Ok tt ->
  exists fits : list (Model * float),
    Forall2 (fun k fit => fit_and_score X k = Ok fit) [2; 3; 4; 5; 6] fits /\
    inertia_list (fst (sweep data X st))
    = inertia_list st ++ map (fun fit => inertia_ (fst fit)) fits /\
    sink_log (fst (sweep data X st))
    = sink_log st ++ List.concat (map (fun kf => trace data (fst kf) (snd kf))
                                      (combine k_range fits)).
Proof.
  unfold ModellingTuning.sweep.
  destruct (for_each k_range (trial data X) st) as [st' r] eqn:E. simpl.
  intros ->. exact (for_each_returned data X k_range st st' E).
Qed.

End Runs.

(** Seven customers, with the fit [checked_fit] and a sink that accepts
    every call: the five inertias are those of the five fits. *)
Lemma returned_sweep_witness :
  exists fits : list (Model * float),
    Forall2 (fun k fit => fit_and_score Z checked_fit no_score 0
                            (drop "CustomerID" seven_customers) k = Ok fit)
            [2; 3; 4; 5; 6] fits /\
    inertia_list (fst (sweep Z checked_fit no_score accept 0 seven_customers
                         (drop "CustomerID" seven_customers) initial))
    = inertia_list initial ++ map (fun fit => inertia_ (fst fit)) fits /\
    sink_log (fst (sweep Z checked_fit no_score accept 0 seven_customers
                     (drop "CustomerID" seven_customers) initial))
    = sink_log initial
        ++ List.concat (map (fun kf => trace seven_customers (fst kf) (snd kf))
                            (combine k_range fits)).
Proof.
  apply (returned_sweep Z checked_fit no_score accept 0 seven_customers
           (drop "CustomerID" seven_customers) initial).
  vm_compute. reflexivity.
Defined.

(** ** The files of a sweep *)

Lemma written_app (l l' : list Effect) : written (l ++ l') = written l ++ written l'.
Proof. apply flat_map_app. Qed.

Lemma uploaded_app (l l' : list Effect) : uploaded (l ++ l') = uploaded l ++ uploaded l'.
Proof. apply flat_map_app. Qed.

Lemma removed_app (l l' : list Effect) : removed (l ++ l') = removed l ++ removed l'.
Proof. apply flat_map_app. Qed.

(** What the calls of a trial that was cut short did to its two files. *)
Lemma partial_trial_files (data : Frame) (k : Z) (model : Model) (s : float)
    (n : nat) (eff : Effect) :
  nth_error (reports data k model s) n = Some eff ->
  exists ru rw,
    uploaded (firstn n (reports data k model s))
    = removed (firstn n (reports data k model s)) ++ ru /\
    written (firstn n (reports data k model s))
    = uploaded (firstn n (reports data k model s)) ++ rw /\
    (List.length ru + List.length rw <= 1)%nat.
Proof.
  unfold reports. intros H.
  do 11 (destruct n as [| n];
         [eexists; eexists; split; [reflexivity | split; [reflexivity | simpl; lia]] |]).
  destruct n; discriminate.
Qed.

Section Files.

Variable RandomState : Type.
Variable KMeans_fit :
  Z -> string -> option Z -> RandomState -> Frame -> result Model.
Variable silhouette_score : Frame -> list Z -> result float.
Variable sink : Effect -> result unit.
Variable g : RandomState.

Local Abbreviation trial :=
  (ModellingTuning.trial RandomState KMeans_fit silhouette_score sink g).
Local Abbreviation sweep :=
  (ModellingTuning.sweep RandomState KMeans_fit silhouette_score sink g).

Lemma for_each_files (data X : Frame) (ks : list Z) (st st' : State) (r : result unit) :
  for_each ks (trial data X) st = (st', r) ->
  exists new ru rw,
    sink_log st' = sink_log st ++ new /\
    uploaded new = removed new ++ ru /\
    written new = uploaded new ++ rw /\
    (List.length ru + List.length rw <= 1)%nat /\
    (r = Ok tt -> removed new = flat_map files ks /\ ru = [] /\ rw = []).
Proof.
  revert st. induction ks as [| k ks IH]; intros st; simpl.
  - unfold ret. intros H; inversion H; subst. exists [], [], []. simpl.
    rewrite app_nil_r. repeat split; auto.
  - unfold bindM at 1. destruct (trial data X k st) as [st1 r1] eqn:Et.
    destruct (trial_cases _ _ _ _ _ _ _ _ _ _ _ Et)
      as [(-> & fit & Hf & Hl & _) | (e & -> & Hcase)].
    + intros H. destruct (IH _ H) as (new & ru & rw & Hl2 & Hu & Hw & Hlen & Hok).
      exists (trace data k fit ++ new), ru, rw.
      rewrite Hl2, Hl, <- app_assoc, uploaded_app, removed_app, written_app, Hw, Hu.
      split; [reflexivity |].
      change (uploaded (trace data k fit)) with (files k).
      change (removed (trace data k fit)) with (files k).
      change (written (trace data k fit)) with (files k).
      rewrite <- !app_assoc.
      split; [reflexivity | split; [reflexivity | split; [exact Hlen |]]].
      intros Hr. destruct (Hok Hr) as (-> & -> & ->). auto.
    + intros H; inversion H; subst st' r.
      destruct Hcase as [[_ ->] | [(_ & Hl & _) | (fit & n & eff & _ & Hn & _ & Hl & _)]].
      * exists [], [], []. rewrite app_nil_r. simpl.
        repeat split; auto; discriminate.
      * exists [start_run (Child k) true], [], []. simpl.
        repeat split; auto; discriminate.
      * destruct (partial_trial_files _ _ _ _ _ _ Hn) as (ru & rw & Hu & Hw & Hlen).
        exists (start_run (Child k) true :: firstn n (reports data k (fst fit) (snd fit))),
               ru, rw.
        split; [exact Hl |].
        change (uploaded (start_run (Child k) true
                            :: firstn n (reports data k (fst fit) (snd fit))))
          with (uploaded (firstn n (reports data k (fst fit) (snd fit)))).
        change (removed (start_run (Child k) true
                           :: firstn n (reports data k (fst fit) (snd fit))))
          with (removed (firstn n (reports data k (fst fit) (snd fit)))).
        change (written (start_run (Child k) true
                           :: firstn n (reports data k (fst fit) (snd fit))))
          with (written (firstn n (reports data k (fst fit) (snd fit)))).
        split; [exact Hu | split; [exact Hw | split; [exact Hlen | discriminate]]].
Qed.

(** The sweep uploads a file only after it has written it and removes it
    only after it has uploaded it, in the same order.  When the sweep
    returns, the ten files of k = 2..6 have all been written, uploaded and
    removed; when an exception ends it, at most one file that it wrote is
    still on disk. *)
Theorem sweep_files (data X : Frame) (st : State) :
  exists new ru rw,
    sink_log (fst (sweep data X st)) = sink_log st ++ new /\
    uploaded new = removed new ++ ru /\
    written new = uploaded new ++ rw /\
    (List.length (written new) <= List.length (removed new) + 1)%nat /\
    (snd (sweep data X st) = Ok tt ->
       removed new = flat_map files [2; 3; 4; 5; 6] /\
       written new = removed new).
Proof.
  unfold ModellingTuning.sweep.
  destruct (for_each k_range (trial data X) st) as [st' r] eqn:E.
  destruct (for_each_files data X k_range st st' r E)
    as (new & ru & rw & Hl & Hu & Hw & Hlen & Hok).
  exists new, ru, rw. simpl.
  split; [exact Hl | split; [exact Hu | split; [exact Hw | split]]].
  - rewrite Hw, Hu, !length_app. lia.
  - intros Hr. destruct (Hok Hr) as (Hrem & -> & ->).
    split; [exact Hrem |]. rewrite Hw, Hu, !app_nil_r. reflexivity.
Qed.

End Files.

(** Seven customers and a sink that accepts every call. *)
Lemma sweep_files_witness :
  removed (sink_log (fst (sweep Z checked_fit no_score accept 0 seven_customers
                             (drop "CustomerID" seven_customers) initial)))
  = flat_map files [2; 3; 4; 5; 6].
Proof.
  destruct (sweep_files Z checked_fit no_score accept 0 seven_customers
              (drop "CustomerID" seven_customers) initial)
    as (new & ru & rw & Hl & _ & _ & _ & Hok).
  rewrite Hl. simpl. apply Hok. vm_compute. reflexivity.
Defined.

(** ** [main]: where its exceptions come from, and what it does first *)

Definition preamble : list Effect :=
  [ set_tracking_uri DAGSHUB_URI;
    set_experiment "Eksperimen K-Means Clustering";
    start_run Parent false ].

Definition processed_path : string := "online-sales-dataset_preprocessing.csv".

Section Main.

Variable RandomState : Type.
Variable KMeans_fit :
  Z -> string -> option Z -> RandomState -> Frame -> result Model.
Variable silhouette_score : Frame -> list Z -> result float.
Variable sink : Effect -> result unit.
Variable read_csv : string -> result Frame.
Variable g : RandomState.

Local Abbreviation fit_and_score :=
  (ModellingTuning.fit_and_score RandomState KMeans_fit silhouette_score g).
Local Abbreviation trial :=
  (ModellingTuning.trial RandomState KMeans_fit silhouette_score sink g).
Local Abbreviation tuning :=
  (ModellingTuning.tuning RandomState KMeans_fit silhouette_score sink g).
Local Abbreviation main :=
  (ModellingTuning.main RandomState KMeans_fit silhouette_score sink read_csv g).

Lemma for_each_raised (data X : Frame) (ks : list Z) (st st' : State) (e : exn) :
  for_each ks (trial data X) st = (st', Raise e) ->
  (exists eff, sink eff = Raise e) \/
  (exists k, In k ks /\ fit_and_score X k = Raise e).
Proof.
  revert st. induction ks as [| k ks IH]; intros st; simpl.
  - unfold ret. discriminate.
  - unfold bindM at 1. destruct (trial data X k st) as [st1 r1] eqn:Et.
    destruct (trial_cases _ _ _ _ _ _ _ _ _ _ _ Et) as [(-> & _) | (x & -> & Hcase)].
    + intros H. destruct (IH _ H) as [Hs | (k' & Hk & Hf)]; [now left |].
      right. exists k'. split; [now right | exact Hf].
    + intros H; inversion H; subst.
      destruct Hcase as [[Hs _] | [(Hf & _) | (fit & n & eff & _ & _ & Hs & _)]].
      * left. eauto.
      * right. exists k. split; [now left | exact Hf].
      * left. eauto.
Qed.

(** What [tuning] does before the loop: the three calls of lines 29-40 in
    order, each only if the one before was accepted. *)
Lemma tuning_cases (data : Frame) (st : State) :
  (exists e n,
     (n < 3)%nat /\ tuning data st = (mkState (inertia_list st)
                                        (sink_log st ++ firstn n preamble), Raise e) /\
     exists eff, sink eff = Raise e) \/
  tuning data st
  = ModellingTuning.sweep RandomState KMeans_fit silhouette_score sink g data
      (drop "CustomerID" data)
      (mkState (inertia_list st) (sink_log st ++ preamble)).
Proof.
  unfold ModellingTuning.tuning, preamble, bindM, perform.
  destruct (sink (set_tracking_uri DAGSHUB_URI)) as [[] | e] eqn:E1.
  2:{ left. exists e, 0%nat. simpl. rewrite app_nil_r. destruct st; simpl.
      split; [lia | split; [reflexivity | eauto]]. }
  cbn [inertia_list sink_log].
  destruct (sink (set_experiment "Eksperimen K-Means Clustering")) as [[] | e] eqn:E2.
  2:{ left. exists e, 1%nat. simpl. split; [lia | split; [reflexivity | eauto]]. }
  cbn [inertia_list sink_log].
  destruct (sink (start_run Parent false)) as [[] | e] eqn:E3.
  2:{ left. exists e, 2%nat. simpl. rewrite <- app_assoc. simpl.
      split; [lia | split; [reflexivity | eauto]]. }
  right. cbn [inertia_list sink_log]. rewrite <- !app_assoc. reflexivity.
Qed.

(** Every exception that leaves [main] was raised by a collaborator: by
    the reader of the file, and then it is not [FileNotFoundError]; by the
    tracking service, the plotting library or the file system; by the fit
    of some k of 2..6, called with the seed 42; or by the silhouette
    score.  [main] raises nothing of its own. *)
Theorem main_errors (e : exn) :
  snd main = Raise e ->
  (read_csv processed_path = Raise e /\ forall p, e <> FileNotFoundError p) \/
  (exists eff, sink eff = Raise e) \/
  (exists k X, In k [2; 3; 4; 5; 6] /\
               KMeans_fit k "k-means++" (Some 42) g X = Raise e) \/
  (exists X labels, silhouette_score X labels = Raise e).
Proof.
  unfold ModellingTuning.main, load_data, processed_path.
  destruct (read_csv "online-sales-dataset_preprocessing.csv") as [data | x] eqn:Er.
  2:{ destruct x; simpl; intros H; inversion H; subst; left;
        (split; [reflexivity | intros p Hp; discriminate]). }
  destruct (tuning_cases data initial) as [(x & n & _ & -> & Hs) | ->].
  { simpl. intros H; inversion H; subst. right; left. exact Hs. }
  unfold ModellingTuning.sweep.
  destruct (for_each k_range _ _) as [st' r] eqn:Ef. simpl. intros ->.
  destruct (for_each_raised _ _ _ _ _ _ Ef) as [Hs | (k & Hk & Hf)]; [right; left; exact Hs |].
  right; right. unfold ModellingTuning.fit_and_score in Hf.
  destruct (KMeans_fit k "k-means++" (Some 42) g (drop "CustomerID" data))
    as [model | x] eqn:Ek; simpl in Hf.
  - right. destruct (silhouette_score _ _) as [s | x] eqn:Es; simpl in Hf; inversion Hf.
    subst. eauto.
  - left. inversion Hf; subst. exists k, (drop "CustomerID" data). split; [exact Hk | exact Ek].
Qed.

(** When the file cannot be read, [main] logs nothing and fits nothing; it
    returns normally when the file is missing and lets any other exception
    of the reader through. *)
Theorem main_without_file (e : exn) :
  read_csv processed_path = Raise e ->
  fst main = initial /\
  snd main = match e with
             | FileNotFoundError _ => Ok tt
             | _ => Raise e
             end.
Proof.
  unfold ModellingTuning.main, load_data, processed_path. intros ->.
  destruct e; split; reflexivity.
Qed.

(** A run of a trial is opened only after the tracking address and the
    experiment were set and the parent run was opened, in this order:
    whenever the log of [main] shows the run of some k, it starts with
    these three calls. *)
Theorem trials_follow_the_preamble :
  opened (sink_log (fst main)) <> [] ->
  firstn 3 (sink_log (fst main)) = preamble.
Proof.
  unfold ModellingTuning.main, load_data.
  destruct (read_csv "online-sales-dataset_preprocessing.csv") as [data | x].
  2:{ destruct x; simpl; intros H; now contradiction H. }
  destruct (tuning_cases data initial) as [(x & n & Hn & -> & _) | ->].
  { simpl. intros H. exfalso. apply H.
    destruct n as [| [| [| n]]]; try reflexivity. lia. }
  intros _. unfold ModellingTuning.sweep.
  destruct (for_each k_range _ _) as [st' r] eqn:Ef.
  destruct (for_each_files _ _ _ _ _ _ _ _ _ _ _ Ef) as (new & _ & _ & Hl & _).
  simpl in *. rewrite Hl. reflexivity.
Qed.

End Main.

(** A reader that finds no file. *)
Lemma main_without_file_witness :
  ModellingTuning.main Z checked_fit no_score accept
    (fun p => Raise (FileNotFoundError p)) 0
  = (initial, Ok tt).
Proof.
  destruct (main_without_file Z checked_fit no_score accept
              (fun p => Raise (FileNotFoundError p)) 0
              (FileNotFoundError processed_path) eq_refl) as [H1 H2].
  destruct (ModellingTuning.main _ _ _ _ _ _) as [st r]. simpl in *. now subst.
Defined.

(** Three customers: the fit of k = 4 raises. *)
Definition three_customers : Frame :=
  [ ("Recency"%string, [0; 1; -1]%float); ("Frequency"%string, [1; 0; -1]%float);
    ("Monetary"%string, [0; 0; 1]%float); ("CustomerID"%string, [1; 2; 3]%float) ].

Lemma main_errors_witness :
  exists k X, In k [2; 3; 4; 5; 6] /\
    checked_fit k "k-means++" (Some 42) 0 X
    = Raise (ValueError "n_samples should be >= n_clusters.").
Proof.
  destruct (main_errors Z checked_fit no_score accept (fun _ => Ok three_customers) 0
              (ValueError "n_samples should be >= n_clusters."))
    as [[H _] | [(eff & H) | [H | (X & l & H)]]];
    [vm_compute; reflexivity | discriminate | discriminate | exact H | discriminate].
Defined.

Lemma trials_follow_the_preamble_witness :
  firstn 3 (sink_log (fst (ModellingTuning.main Z checked_fit no_score accept
                             (fun _ => Ok three_customers) 0)))
  = preamble.
Proof.
  apply (trials_follow_the_preamble Z checked_fit no_score accept
           (fun _ => Ok three_customers) 0).
  vm_compute. discriminate.
Defined.

(** ** [drop] with [errors='ignore'] *)

Lemma drop_absent (name : string) (data : Frame) :
  has_no_column name data -> drop name data = data.
Proof.
  unfold has_no_column, drop. induction data as [| c data IH]; intros H; simpl.
  - reflexivity.
  - assert (Hc : String.eqb (fst c) name = false)
      by (apply String.eqb_neq; apply H; now left).
    rewrite Hc. simpl. f_equal. apply IH. intros c' Hc'. apply H. now right.
Qed.

(** When the file read has no [CustomerID] column, [main] raises nothing
    for it: the run is the three calls of the preamble followed by the
    sweep in which every fit is given the table as it was read. *)
Theorem table_without_CustomerID_is_fitted_whole (RandomState : Type)
    (KMeans_fit : Z -> string -> option Z -> RandomState -> Frame -> result Model)
    (silhouette_score : Frame -> list Z -> result float)
    (sink : Effect -> result unit) (read_csv : string -> result Frame)
    (g : RandomState) (data : Frame) :
  read_csv processed_path = Ok data ->
  has_no_column "CustomerID" data ->
  ModellingTuning.main RandomState KMeans_fit silhouette_score sink read_csv g
  = (perform_all sink preamble >>>
     sweep RandomState KMeans_fit silhouette_score sink g data data) initial.
Proof.
  intros Hread Hno. unfold ModellingTuning.main, load_data.
  change "online-sales-dataset_preprocessing.csv"%string with processed_path.
  rewrite Hread. unfold tuning. rewrite (drop_absent _ _ Hno).
  unfold preamble, perform_all, bindM, perform, ret.
  destruct (sink (set_tracking_uri DAGSHUB_URI)) as [[] | x]; [| reflexivity].
  destruct (sink (set_experiment _)) as [[] | x]; [| reflexivity].
  destruct (sink (start_run Parent false)) as [[] | x]; reflexivity.
Qed.

(** A file of three features and no identifiers. *)
Lemma table_without_CustomerID_is_fitted_whole_witness :
  ModellingTuning.main Z checked_fit no_score accept
    (fun _ => Ok (drop "CustomerID" seven_customers)) 0
  = (perform_all accept preamble >>>
     sweep Z checked_fit no_score accept 0
       (drop "CustomerID" seven_customers) (drop "CustomerID" seven_customers)) initial.
Proof.
  apply table_without_CustomerID_is_fitted_whole; [reflexivity |].
  intros c Hc. vm_compute in Hc.
  destruct Hc as [<- | [<- | [<- | []]]]; discriminate.
Defined.

End SweepFacts2.

(** * [main] of the preprocessing *)

Module AutomateMainFacts.

Import Automate AutomateInstances.

Section Outcomes.

Variable parse_datetime : string -> Datetime.
Variable log1p : float -> float.
Variable fit_transform : list Features -> result (list Features).
Variable path_exists : string -> bool.
Variable read_csv : string -> result DataFrame.

Local Abbreviation main :=
  (Automate.main parse_datetime log1p fit_transform path_exists read_csv).
Local Abbreviation preprocess_data :=
  (Automate.preprocess_data parse_datetime log1p fit_transform).

(** [main] writes a table only when the input file exists, was read and
    was preprocessed without exception; what it writes is the table that
    [preprocess_data] returned, to the one output path.  When the file
    does not exist the reader is not called: the [FileNotFoundError] names
    the input path, is reported, and [main] returns. *)
Theorem main_outcomes :
  (path_exists input_path = false -> main = LoadFailed (FileNotFoundError input_path)) /\
  (forall p table, main = Saved p table ->
     p = output_path /\ path_exists input_path = true /\
     exists df, read_csv input_path = Ok df /\ snd (preprocess_data df) = Ok table) /\
  (forall e, main = Aborted e ->
     exists df, read_csv input_path = Ok df /\ snd (preprocess_data df) = Raise e).
Proof.
  unfold Automate.main, load_data. split; [| split].
  - intros ->. reflexivity.
  - intros p table. destruct (path_exists input_path); [| discriminate].
    destruct (read_csv input_path) as [df | e]; [| discriminate].
    destruct (snd (preprocess_data df)) as [t | e] eqn:E; [| discriminate].
    intros H; inversion H; subst. split; [reflexivity | split; [reflexivity |]].
    exists df. split; [reflexivity | exact E].
  - intros e. destruct (path_exists input_path); [| discriminate].
    destruct (read_csv input_path) as [df | x]; [| discriminate].
    destruct (snd (preprocess_data df)) as [t | x] eqn:E; [discriminate |].
    intros H; inversion H; subst. exists df. split; [reflexivity | exact E].
Qed.

End Outcomes.

End AutomateMainFacts.
